(** * FHAT front end: presentation logic and upload workflow

    A shallow embedding of the React components of the FHAT client
    (gauges, alert panels, results page, upload page) together with the
    properties of their classification rules and of the upload workflow.

    JavaScript values are embedded as an inductive type; the operators the
    components use ([>=], [===], [!], [||], [??], [?.], [.map], [.split])
    are embedded with the semantics ECMAScript gives them, including the
    cases in which they throw.

    A component is embedded as the function from its props to what it
    returns, with the props, colours and texts that its elements carry; how
    React then draws the elements is outside the embedding. The upload page
    is embedded as a transition system over the events that reach it, the
    two awaited calls being answered from outside. The length of a string
    is counted in bytes, which matters nowhere since lengths are only
    compared with 0; a store that refuses a write is not considered.

    Converting an object or a list to a number or to a text can throw.
    The trend chart is embedded with that case; the gauges, the ESG card
    and the template literals of the pages are embedded for values whose
    conversion returns, and their properties on values that are not
    numbers are stated for such values. *)

From Stdlib Require Import QArith Ascii.
From stdpp Require Import base option strings pretty list gmap.

Set Warnings "-register-all".
Local Open Scope string_scope.

(** ** JavaScript values *)

(** A JavaScript Number: every finite double is a rational, so the finite
    numbers are embedded in [Q]; the three special values are kept apart. *)
Inductive number : Type :=
  | NaN
  | NegInfinity
  | Finite (q : Q)
  | PosInfinity.

(** The values a JSON payload, a prop or a thrown error can hold. An object
    is the association list of its own properties, first binding wins. *)
Inductive value : Type :=
  | VUndefined
  | VNull
  | VBool (b : bool)
  | VNum (n : number)
  | VStr (s : string)
  | VArr (items : list value)
  | VObj (fields : list (string * value)).

(** Exceptions raised by the language itself. *)
Inductive error : Type :=
  | TypeError
  | SyntaxError.

(** The result of evaluating an expression or rendering a component. *)
Inductive completion (A : Type) : Type :=
  | Normal (a : A)
  | Throw (e : error).
Arguments Normal {A} a.
Arguments Throw {A} e.

Global Instance completion_ret : MRet completion := λ A a, Normal a.

Global Instance completion_bind : MBind completion := λ A B k c,
  match c with
  | Normal a => k a
  | Throw e => Throw e
  end.

(** The built-ins of the host that the components call and whose text is
    not part of the repository. *)
Class Runtime : Type := {
  (** ToNumber applied to a String. *)
  StringToNumber : string → number;
  (** Array.prototype.toString, reached by ToPrimitive on an array. *)
  ArrayToString : list value → string;
  (** JSON.parse; [None] when it throws a SyntaxError. *)
  JSON_parse : string → option value;
  (** JSON.stringify; [None] when it returns undefined. *)
  JSON_stringify : value → option string
}.

Definition num (z : Z) : value := VNum (Finite (inject_Z z)).

(** ToBoolean. *)
Definition truthy (v : value) : bool :=
  match v with
  | VUndefined | VNull => false
  | VBool b => b
  | VNum NaN => false
  | VNum (Finite q) => negb (Qeq_bool q 0)
  | VNum _ => true
  | VStr s => negb (String.eqb s "")
  | VArr _ | VObj _ => true
  end.

(** [a || b] and [a ?? b]. *)
Definition or_else (a b : value) : value := if truthy a then a else b.

Definition nullish (a b : value) : value :=
  match a with
  | VUndefined | VNull => b
  | _ => a
  end.

Fixpoint assoc (k : string) (fields : list (string * value)) : value :=
  match fields with
  | [] => VUndefined
  | (k', v) :: rest => if String.eqb k k' then v else assoc k rest
  end.

(** [o.k] for an [o] that is neither null nor undefined: own data
    properties, and [length] of arrays and strings. No key read by the
    components names an inherited property. *)
Definition getProp (o : value) (k : string) : value :=
  match o with
  | VObj fields => assoc k fields
  | VArr items =>
      if String.eqb k "length" then num (Z.of_nat (length items)) else VUndefined
  | VStr s =>
      if String.eqb k "length" then num (Z.of_nat (String.length s)) else VUndefined
  | _ => VUndefined
  end.

(** [o.k]: throws on null and undefined. *)
Definition member (o : value) (k : string) : completion value :=
  match o with
  | VUndefined | VNull => Throw TypeError
  | _ => Normal (getProp o k)
  end.

(** [o?.k]. *)
Definition opt (o : value) (k : string) : value :=
  match o with
  | VUndefined | VNull => VUndefined
  | _ => getProp o k
  end.

(** [o.map(f)]: only arrays have a [map] method. *)
Definition call_map {B} (o : value) (f : value → completion B) : completion (list B) :=
  match o with
  | VArr items => mapM f items
  | _ => Throw TypeError
  end.

(** ToNumber: the Number a value converts to when its conversion returns.
    The conversion of a primitive value always returns; that of an object
    or a list can throw, and [stringifiable] below tells when it returns. *)
Definition ToNumber `{Runtime} (v : value) : number :=
  match v with
  | VUndefined => NaN
  | VNull => Finite 0
  | VBool b => if b then Finite 1 else Finite 0
  | VNum n => n
  | VStr s => StringToNumber s
  | VArr items => StringToNumber (ArrayToString items)
  | VObj _ => StringToNumber "[object Object]"
  end.

(** [a >= b] and [a > b] on Numbers: false as soon as one side is NaN. *)
Definition number_ge (a b : number) : bool :=
  match a, b with
  | NaN, _ | _, NaN => false
  | PosInfinity, _ => true
  | _, NegInfinity => true
  | NegInfinity, _ => false
  | Finite _, PosInfinity => false
  | Finite x, Finite y => Qle_bool y x
  end.

Definition number_gt (a b : number) : bool :=
  match a, b with
  | NaN, _ | _, NaN => false
  | _, PosInfinity => false
  | NegInfinity, _ => false
  | PosInfinity, _ => true
  | Finite _, NegInfinity => true
  | Finite x, Finite y => negb (Qle_bool x y)
  end.

(** [v >= z] and [v > z] against a numeric literal: the comparison is
    numeric whatever [v] is. *)
Definition ge_lit `{Runtime} (v : value) (z : Z) : bool :=
  number_ge (ToNumber v) (Finite (inject_Z z)).

Definition gt_lit `{Runtime} (v : value) (z : Z) : bool :=
  number_gt (ToNumber v) (Finite (inject_Z z)).

(** [v === "lit"] and [v === z] against a literal. *)
Definition is_str (v : value) (lit : string) : bool :=
  match v with
  | VStr s => String.eqb s lit
  | _ => false
  end.

Definition is_num (v : value) (z : Z) : bool :=
  match v with
  | VNum (Finite q) => Qeq_bool q (inject_Z z)
  | _ => false
  end.

Infix ">=?" := ge_lit (at level 70, no associativity).
Infix "===" := is_str (at level 70, no associativity).

(** ** Gauges

    Each gauge evaluates its threshold expression twice, once for the bar
    of the chart and once for the figure under it. *)

Record gauge : Type := {
  heading : string;
  bar_name : string;
  bar_value : value;
  bar_fill : string;
  figure_color : string;
  figure : value;
  caption : value
}.

(** FraudPanel.jsx, second part: [RiskGauge({ score, category })]. *)
Definition RiskGauge {rt : Runtime} (score category : value) : gauge := {|
  heading := "Risk Score";
  bar_name := "Risk";
  bar_value := score;
  bar_fill :=
    if score >=? 750 then "#28a745"
    else if score >=? 600 then "#fd7e14"
    else "#dc3545";
  figure_color :=
    if score >=? 750 then "#28a745"
    else if score >=? 600 then "#fd7e14"
    else "#dc3545";
  figure := score;
  caption := category
|}.

(** part_002: [InvestorGauge({ score, category })]. *)
Definition InvestorGauge {rt : Runtime} (score category : value) : gauge := {|
  heading := "Investor Readiness";
  bar_name := "Investor";
  bar_value := score;
  bar_fill :=
    if score >=? 80 then "#28a745"
    else if score >=? 60 then "#007bff"
    else if score >=? 40 then "#fd7e14"
    else "#dc3545";
  figure_color :=
    if score >=? 80 then "#28a745"
    else if score >=? 60 then "#007bff"
    else if score >=? 40 then "#fd7e14"
    else "#dc3545";
  figure := score;
  caption := category
|}.

(** ESGCard.jsx, second part: [SurvivalGauge({ score })]. *)
Definition SurvivalGauge {rt : Runtime} (score : value) : gauge := {|
  heading := "Business Survival Score";
  bar_name := "Survival";
  bar_value := score;
  bar_fill :=
    if score >=? 70 then "#28a745"
    else if score >=? 50 then "#fd7e14"
    else "#dc3545";
  figure_color :=
    if score >=? 70 then "#28a745"
    else if score >=? 50 then "#fd7e14"
    else "#dc3545";
  figure := score;
  caption :=
    VStr (if score >=? 70 then "Stable"
          else if score >=? 50 then "Watch Closely"
          else "High Risk")
|}.

(** ** ESG card and AI summary *)

(** What a component returns: [null], or an element. *)
Inductive rendered (A : Type) : Type :=
  | null
  | element (a : A).
Arguments null {A}.
Arguments element {A} a.

Global Instance rendered_fmap : FMap rendered := λ A B f r,
  match r with
  | null => null
  | element a => element (f a)
  end.

Record esg_breakdown : Type := {
  environmental : value;
  social : value;
  governance : value
}.

Record esg_card : Type := {
  esg_color : string;
  esg_score : value;
  esg_category : value;
  (** [{breakdown && (...)}]: the falsy [breakdown] itself, or the block. *)
  esg_details : value + esg_breakdown
}.

Module ESG.

(** [getColor], closed over the [score] of the card. *)
Definition getColor {rt : Runtime} (score : value) : string :=
  if score >=? 80 then "#22c55e"
  else if score >=? 65 then "#3b82f6"
  else if score >=? 50 then "#f59e0b"
  else "#ef4444".

(** ESGCard.jsx: [ESGCard({ esg })]. *)
Definition ESGCard {rt : Runtime} (esg : value) : rendered esg_card :=
  if negb (truthy esg) then null
  else
    let score := getProp esg "score" in
    let category := getProp esg "category" in
    let breakdown := getProp esg "breakdown" in
    element {|
      esg_color := getColor score;
      esg_score := score;
      esg_category := category;
      esg_details :=
        if truthy breakdown then
          inr {| environmental := getProp breakdown "environmental";
                 social := getProp breakdown "social";
                 governance := getProp breakdown "governance" |}
        else inl breakdown
    |}.

End ESG.

(** [s.split("\n")] on a string. *)
Fixpoint split_lines (s : string) : list string :=
  match s with
  | EmptyString => [""]
  | String c rest =>
      if Ascii.eqb c "010"%char then "" :: split_lines rest
      else match split_lines rest with
           | [] => [String c ""]
           | line :: lines => String c line :: lines
           end
  end.

(** [summary.split("\n")]: only strings have a [split] method. *)
Definition call_split (v : value) : completion (list string) :=
  match v with
  | VStr s => Normal (split_lines s)
  | _ => Throw TypeError
  end.

(** part_001: [AISummary({ summary })]; the element is the list of the
    paragraphs of the summary. *)
Definition AISummary (summary : value) : completion (rendered (list string)) :=
  if negb (truthy summary) then Normal null
  else lines ← call_split summary ; Normal (element lines).

(** ** Alert panels *)

Record alert_entry : Type := {
  border_left : string;
  alert_type : value;
  badge_background : string;
  badge_text : value;
  alert_body : value
}.

Inductive panel : Type :=
  | AllClear (title : string) (color : string) (message : string)
  | Alerts (title : string) (entries : list alert_entry).

Module Fraud.

Definition getSeverityColor (severity : value) : string :=
  if severity === "Critical" then "#ef4444"
  else if severity === "High" then "#dc2626"
  else if severity === "Medium" then "#f59e0b"
  else "#3b82f6".

(** FraudPanel.jsx: [FraudPanel({ fraud })]. *)
Definition FraudPanel (fraud : value) : completion panel :=
  if negb (truthy fraud) || is_num (getProp fraud "length") 0 then
    Normal (AllClear "Fraud Detection" "#22c55e" "✅ No fraud risks detected")
  else
    entries ← call_map fraud (fun flag =>
      severity ← member flag "severity" ;
      type ← member flag "type" ;
      message ← member flag "message" ;
      Normal {|
        border_left := "6px solid " ++ getSeverityColor severity;
        alert_type := type;
        badge_background := getSeverityColor severity;
        badge_text := severity;
        alert_body := or_else message (getProp flag "description")
      |}) ;
    Normal (Alerts "Fraud & Anomaly Alerts" entries).

End Fraud.

Module Warning.

Definition getSeverityColor (severity : value) : string :=
  if severity === "Critical" then "#ef4444"
  else if severity === "High" then "#dc2626"
  else if severity === "Medium" then "#f59e0b"
  else "#3b82f6".

(** part_000: [WarningPanel({ warnings })]. *)
Definition WarningPanel (warnings : value) : completion panel :=
  if negb (truthy warnings) || is_num (getProp warnings "length") 0 then
    Normal (AllClear "Early Warning System" "#22c55e" "✅ No active financial warnings")
  else
    entries ← call_map warnings (fun warn =>
      severity ← member warn "severity" ;
      type ← member warn "type" ;
      message ← member warn "message" ;
      Normal {|
        border_left := "6px solid " ++ getSeverityColor severity;
        alert_type := type;
        badge_background := getSeverityColor severity;
        badge_text := severity;
        alert_body := or_else message (getProp warn "description")
      |}) ;
    Normal (Alerts "Early Warning Alerts" entries).

End Warning.

(** ** Results page *)

(** The [value] prop of a card: an expression, or a template literal
    [`${v}tail`], kept with its value: it is a text when the value can be
    converted to one, which [stringifiable] below tells. *)
Inductive child : Type :=
  | Value (v : value)
  | Template (v : value) (tail : string).

(** The props of a [Card] (part_003) or of a [MetricCard] (UploadPage.jsx,
    second part); [subtitle] is [undefined] where the prop is not passed. *)
Record card : Type := {
  card_title : string;
  card_value : child;
  card_subtitle : value
}.

Definition Card (title : string) (v : child) (subtitle : value) : card :=
  {| card_title := title; card_value := v; card_subtitle := subtitle |}.

Definition MetricCard (title : string) (v : child) (subtitle : value) : card :=
  {| card_title := title; card_value := v; card_subtitle := subtitle |}.

(** A page is either its loading placeholder or its content. *)
Inductive page_view (A : Type) : Type :=
  | Loading (text : string)
  | Shown (content : A).
Arguments Loading {A} text.
Arguments Shown {A} content.

Record overview : Type := {
  scores : list card;
  finances : list card;
  product : value;
  product_reason : value;
  forecast_revenue : value;
  forecast_expenses : value;
  summary : value
}.

(** part_003: what [ResultsPage] returns for the [analysis] it holds. *)
Definition ResultsPage (analysis : value) : page_view overview :=
  if negb (truthy analysis) then Loading "Loading..."
  else Shown {|
    scores := [
      Card "Risk Score"
        (Value (nullish (opt (opt analysis "risk") "score") (num 0)))
        (nullish (opt (opt analysis "risk") "category") (VStr ""));
      Card "Investor Readiness"
        (Value (nullish (opt (opt analysis "investor") "score") (num 0)))
        (nullish (opt (opt analysis "investor") "category") (VStr ""));
      Card "ESG Score"
        (Value (nullish (opt (opt analysis "esg") "score") (num 0)))
        (nullish (opt (opt analysis "esg") "category") (VStr ""));
      Card "Survival Score"
        (Value (nullish (opt analysis "survival_score") (num 0)))
        VUndefined ];
    finances := [
      Card "Net Cash Flow"
        (Value (nullish (opt (opt analysis "cashflow") "net_cash_flow") (num 0)))
        (nullish (opt (opt analysis "cashflow") "liquidity_status") (VStr ""));
      Card "Working Capital"
        (Value (nullish (opt (opt analysis "working_capital") "working_capital") (num 0)))
        (nullish (opt (opt analysis "working_capital") "status") (VStr ""));
      Card "Compliance Score"
        (Value (nullish (opt (opt analysis "compliance") "compliance_score") (num 0)))
        VUndefined;
      Card "Industry Percentile"
        (Template (nullish (opt (opt analysis "benchmarking") "percentile_rank") (num 0)) "%")
        VUndefined ];
    product :=
      nullish (opt (opt analysis "product_recommendations") "recommended_product") (VStr "N/A");
    product_reason :=
      nullish (opt (opt analysis "product_recommendations") "reason") (VStr "");
    forecast_revenue :=
      nullish (opt (opt analysis "forecast") "next_revenue_forecast") (num 0);
    forecast_expenses :=
      nullish (opt (opt analysis "forecast") "next_expense_forecast") (num 0);
    summary := nullish (opt analysis "ai_summary") (VStr "")
  |}.

(** The state of the mounted results page: its [analysis] and the route. *)
Record results_state : Type := {
  analysis : value;
  route : string
}.

(** [useState(null)], on the route that mounts the page. *)
Definition results_initial : results_state :=
  {| analysis := VNull; route := "/results" |}.

(** [localStorage.getItem(key)]: [None] is [null]. *)
Definition getItem (storage : gmap string string) (key : string) : option string :=
  storage !! key.

(** [if (data)] on what [getItem] returned. *)
Definition truthy_item (data : option string) : bool :=
  match data with
  | Some s => truthy (VStr s)
  | None => false
  end.

(** part_003: the effect [ResultsPage] runs when it is mounted. *)
Definition ResultsPage_effect {rt : Runtime}
    (storage : gmap string string) (st : results_state) : completion results_state :=
  let data := getItem storage "analysis" in
  if truthy_item data then
    match JSON_parse (default "" data) with
    | Some parsed => Normal {| analysis := parsed; route := route st |}
    | None => Throw SyntaxError
    end
  else Normal {| analysis := analysis st; route := "/" |}.

(** ** Dashboard (UploadPage.jsx, second part) *)

Record point : Type := {
  period : value;
  revenue : value
}.

Inductive recommendations : Type :=
  | Products (items : list value)
  | NoProducts (text : string).

Record dashboard : Type := {
  metrics : list card;
  forecastData : list point;
  products : recommendations;
  ai_summary : value
}.

(** [o?.map(f) || []]. *)
Definition opt_map_or_empty {B} (o : value) (f : value → completion B) : completion (list B) :=
  match o with
  | VUndefined | VNull => Normal []
  | _ => call_map o f
  end.

Definition stringify {rt : Runtime} (v : value) : value :=
  match JSON_stringify v with
  | Some s => VStr s
  | None => VUndefined
  end.

(** What [Dashboard] returns for the [data] it holds. *)
Definition Dashboard {rt : Runtime} (data : value) : completion (page_view dashboard) :=
  if negb (truthy data) then Normal (Loading "Analyzing Financial Data...")
  else
    forecast ← opt_map_or_empty
      (opt (opt (getProp data "forecast") "revenue_forecast") "future")
      (fun item =>
         p ← member item "period" ;
         v ← member item "value" ;
         Normal {| period := p; revenue := v |}) ;
    recommended ←
      (if gt_lit (opt (getProp data "product_recommendations") "length") 0 then
         items ← call_map (getProp data "product_recommendations") (fun p =>
           name ← member p "name" ;
           Normal (or_else name (stringify p))) ;
         Normal (Products items)
       else Normal (NoProducts "No suitable financial products recommended.")) ;
    Normal (Shown {|
      metrics := [
        MetricCard "Risk Score" (Value (opt (getProp data "risk") "score"))
          (opt (getProp data "risk") "category");
        MetricCard "Investor Readiness" (Value (opt (getProp data "investor") "score"))
          (opt (getProp data "investor") "category");
        MetricCard "ESG Score" (Value (opt (getProp data "esg") "score"))
          (opt (getProp data "esg") "category");
        MetricCard "Survival Score" (Value (getProp data "survival_score")) VUndefined;
        MetricCard "Net Cash Flow" (Value (opt (getProp data "cashflow") "net_cash_flow")) VUndefined;
        MetricCard "Working Capital"
          (Value (opt (getProp data "working_capital") "working_capital")) VUndefined;
        MetricCard "Compliance Score"
          (Value (opt (getProp data "compliance") "compliance_score")) VUndefined;
        MetricCard "Industry Percentile"
          (Template (or_else (opt (getProp data "benchmarking") "industry_percentile") (num 0)) "%")
          VUndefined ];
      forecastData := forecast;
      products := recommended;
      ai_summary := getProp data "ai_summary"
    |}).

(** ** Routes (App.jsx) *)

Inductive page : Type :=
  | UploadPage
  | ResultsPageRoute.

(** The element [App] mounts for a path. *)
Definition App (path : string) : option page :=
  if String.eqb path "/" then Some UploadPage
  else if String.eqb path "/results" then Some ResultsPageRoute
  else None.

(** ** Upload page (UploadPage.jsx, first part, and api.js) *)

(** A file picked in the input; the page only tests it and passes it on. *)
Record File : Type := { file_name : string }.

(** The calls api.js makes on the service. *)
Inductive request : Type :=
  | POST_upload (businessId : Z) (file : File)
  | POST_analyze (businessId : Z).

Definition uploadFile (businessId : Z) (file : File) : request :=
  POST_upload businessId file.

Definition runAnalysis (businessId : Z) : request :=
  POST_analyze businessId.

(** The response of the service as the client library hands it over. *)
Record response : Type := { data : value }.

(** How an awaited call ends: with a response, or with the error thrown. *)
Inductive settled : Type :=
  | Fulfilled (res : response)
  | Rejected (err : value).

(** Where [handleUpload] stands: not running, or suspended at one of its
    two [await]s. *)
Inductive phase : Type :=
  | Idle
  | Uploading
  | Analyzing.

Record upload_page : Type := {
  file : option File;
  loading : bool;
  pending : phase;
  localStorage : gmap string string;
  location : string;
  (** the arguments of [alert], oldest first *)
  alerts : list value;
  (** the calls issued, oldest first *)
  requests : list request
}.

Definition businessId : Z := 1.

Definition setFile (f : option File) (pg : upload_page) : upload_page :=
  {| file := f; loading := loading pg; pending := pending pg;
     localStorage := localStorage pg; location := location pg;
     alerts := alerts pg; requests := requests pg |}.

Definition setLoading (b : bool) (pg : upload_page) : upload_page :=
  {| file := file pg; loading := b; pending := pending pg;
     localStorage := localStorage pg; location := location pg;
     alerts := alerts pg; requests := requests pg |}.

Definition suspend (ph : phase) (pg : upload_page) : upload_page :=
  {| file := file pg; loading := loading pg; pending := ph;
     localStorage := localStorage pg; location := location pg;
     alerts := alerts pg; requests := requests pg |}.

Definition setItem (key text : string) (pg : upload_page) : upload_page :=
  {| file := file pg; loading := loading pg; pending := pending pg;
     localStorage := <[key := text]> (localStorage pg); location := location pg;
     alerts := alerts pg; requests := requests pg |}.

Definition navigate (path : string) (pg : upload_page) : upload_page :=
  {| file := file pg; loading := loading pg; pending := pending pg;
     localStorage := localStorage pg; location := path;
     alerts := alerts pg; requests := requests pg |}.

Definition alert (v : value) (pg : upload_page) : upload_page :=
  {| file := file pg; loading := loading pg; pending := pending pg;
     localStorage := localStorage pg; location := location pg;
     alerts := alerts pg ++ [v]; requests := requests pg |}.

Definition call (r : request) (pg : upload_page) : upload_page :=
  {| file := file pg; loading := loading pg; pending := pending pg;
     localStorage := localStorage pg; location := location pg;
     alerts := alerts pg; requests := requests pg ++ [r] |}.

(** The [detail] computed in the [catch] block. *)
Definition detail (err : value) : value :=
  or_else
    (or_else
      (or_else (opt (opt (opt err "response") "data") "detail")
               (opt (opt (opt err "response") "data") "message"))
      (opt err "message"))
    (VStr "Upload or analysis failed.").

(** [catch (err) { ... }] followed by the [setLoading(false)] that ends
    [handleUpload]. *)
Definition catch (err : value) (pg : upload_page) : upload_page :=
  setLoading false (suspend Idle (alert (detail err) pg)).

(** [handleUpload] up to its first [await]. *)
Definition handleUpload (pg : upload_page) : upload_page :=
  match file pg with
  | None => alert (VStr "Please select a file.") pg
  | Some f =>
      suspend Uploading (call (uploadFile businessId f) (setLoading true pg))
  end.

(** [handleUpload] resumed when [uploadFile] settles. *)
Definition upload_settled (r : settled) (pg : upload_page) : upload_page :=
  match r with
  | Fulfilled _ => suspend Analyzing (call (runAnalysis businessId) pg)
  | Rejected err => catch err pg
  end.

(** [handleUpload] resumed when [runAnalysis] settles; [setItem] stores the
    text of its argument, which is ["undefined"] for [undefined]. *)
Definition analysis_settled {rt : Runtime} (r : settled) (pg : upload_page) : upload_page :=
  match r with
  | Fulfilled res =>
      setLoading false (suspend Idle
        (navigate "/results"
          (setItem "analysis" (default "undefined" (JSON_stringify (data res))) pg)))
  | Rejected err => catch err pg
  end.

(** What can happen to the page. *)
Inductive event : Type :=
  | ChooseFile (f : option File)
  | ClickAnalyze
  | UploadSettled (r : settled)
  | AnalysisSettled (r : settled).

(** One event. The button carries [disabled={loading}], so a click while
    [loading] does not reach [handleUpload]; a call can only settle while
    it is awaited. *)
Definition step {rt : Runtime} (pg : upload_page) (ev : event) : upload_page :=
  match ev with
  | ChooseFile f => setFile f pg
  | ClickAnalyze => if loading pg then pg else handleUpload pg
  | UploadSettled r =>
      match pending pg with
      | Uploading => upload_settled r pg
      | _ => pg
      end
  | AnalysisSettled r =>
      match pending pg with
      | Analyzing => analysis_settled r pg
      | _ => pg
      end
  end.

Definition run {rt : Runtime} (pg : upload_page) (evs : list event) : upload_page :=
  foldl step pg evs.

(** The page as the session opens it: no file, nothing stored. *)
Definition upload_initial : upload_page :=
  {| file := None; loading := false; pending := Idle;
     localStorage := ∅; location := "/"; alerts := []; requests := [] |}.

(** A host without conversions, on which the examples are run; none of
    them reaches a conversion. *)
Definition bare_host : Runtime :=
  {| StringToNumber := λ _, NaN;
     ArrayToString := λ _, "";
     JSON_parse := λ _, None;
     JSON_stringify := λ _, None |}.

(** The bare host, except that [JSON.parse] reads the one text [text] as
    the value [v]. *)
Definition host_reading (text : string) (v : value) : Runtime :=
  {| StringToNumber := λ _, NaN;
     ArrayToString := λ _, "";
     JSON_parse := λ s, if String.eqb s text then Some v else None;
     JSON_stringify := λ _, None |}.

(** ** Vocabulary of the properties *)

(** The entry an alert panel builds for one element of its list, given
    its colouring of severities. *)
Definition entry_of (colour : value → string) (item : value) (e : alert_entry) : Prop :=
  badge_text e = getProp item "severity" ∧
  badge_background e = colour (getProp item "severity") ∧
  border_left e = "6px solid " ++ colour (getProp item "severity") ∧
  alert_type e = getProp item "type" ∧
  alert_body e = or_else (getProp item "message") (getProp item "description").

Definition not_nullish (v : value) : Prop := v ≠ VUndefined ∧ v ≠ VNull.

(** An operation is in flight when [handleUpload] is suspended. *)
Definition in_flight (pg : upload_page) : bool :=
  match pending pg with
  | Idle => false
  | Uploading | Analyzing => true
  end.

(** [loading] is set exactly while an operation is in flight. *)
Definition loading_tracks_flight (pg : upload_page) : Prop :=
  loading pg = in_flight pg.

(** The page once a file is chosen, the button clicked and the upload
    done: the analysis is awaited. *)
Definition analyzing_page : upload_page :=
  @run bare_host upload_initial
    [ChooseFile (Some {| file_name := "ledger.csv" |});
     ClickAnalyze;
     UploadSettled (Fulfilled {| data := VNull |})].

(** The page once a file is chosen and the button clicked: the upload is
    awaited. *)
Definition uploading_page : upload_page :=
  @run bare_host upload_initial
    [ChooseFile (Some {| file_name := "ledger.csv" |}); ClickAnalyze].

(** The error of a request answered with [{message: "file rejected"}], and
    the error of a request that got no answer. *)
Definition file_rejected : value :=
  VObj [("message", VStr "Request failed with status code 400");
        ("response", VObj [("status", num 400);
                           ("data", VObj [("message", VStr "file rejected")])])].

Definition network_error : value :=
  VObj [("message", VStr "Network Error")].

(** The error of a request answered 500 with [{detail: "model unavailable"}]. *)
Definition model_unavailable : value :=
  VObj [("message", VStr "Request failed with status code 500");
        ("response", VObj [("status", num 500);
                           ("data", VObj [("detail", VStr "model unavailable")])])].

(** The upload page as a session opens it on a store that may hold what
    an earlier session left: [localStorage] outlives the session. *)
Definition opened_on (storage : gmap string string) : upload_page :=
  {| file := None; loading := false; pending := Idle;
     localStorage := storage; location := "/"; alerts := []; requests := [] |}.

(** The error of a request answered 422 with a list of problems as
    [detail]. *)
Definition validation_error : value :=
  VObj [("message", VStr "Request failed with status code 422");
        ("response",
         VObj [("status", num 422);
               ("data",
                VObj [("detail", VArr [VObj [("msg", VStr "field required")]])])])].

(** The event that completes an analysis. *)
Definition completes (ev : event) : bool :=
  match ev with
  | AnalysisSettled (Fulfilled _) => true
  | _ => false
  end.

(** A field is missing from a payload when the chain of optional accesses
    along its path ends in [undefined] or [null]. *)
Definition lookup_path (payload : value) (path : list string) : value :=
  foldl opt payload path.

Definition missing (v : value) : Prop := v = VUndefined ∨ v = VNull.

(** A numeric field of the payload as a page shows it: the title of its
    panel, its path in the payload, and the form of the panel, which is the
    value itself or the value followed by a percent sign. *)
Record numeric_field : Type := {
  panel_title : string;
  field_path : list string;
  panel_form : value → child
}.

Definition plain (title : string) (path : list string) : numeric_field :=
  {| panel_title := title; field_path := path; panel_form := Value |}.

Definition percent (title : string) (path : list string) : numeric_field :=
  {| panel_title := title; field_path := path;
     panel_form := λ v, Template v "%" |}.

(** The numeric fields of the results page, in the order of its panels. *)
Definition numeric_fields : list numeric_field :=
  [ plain "Risk Score" ["risk"; "score"];
    plain "Investor Readiness" ["investor"; "score"];
    plain "ESG Score" ["esg"; "score"];
    plain "Survival Score" ["survival_score"];
    plain "Net Cash Flow" ["cashflow"; "net_cash_flow"];
    plain "Working Capital" ["working_capital"; "working_capital"];
    plain "Compliance Score" ["compliance"; "compliance_score"];
    percent "Industry Percentile" ["benchmarking"; "percentile_rank"];
    plain "Revenue" ["forecast"; "next_revenue_forecast"];
    plain "Expenses" ["forecast"; "next_expense_forecast"] ].

(** The score fields of the dashboard, in the order of its cards; the
    card of the percentile comes after them. *)
Definition dashboard_fields : list numeric_field :=
  [ plain "Risk Score" ["risk"; "score"];
    plain "Investor Readiness" ["investor"; "score"];
    plain "ESG Score" ["esg"; "score"];
    plain "Survival Score" ["survival_score"];
    plain "Net Cash Flow" ["cashflow"; "net_cash_flow"];
    plain "Working Capital" ["working_capital"; "working_capital"];
    plain "Compliance Score" ["compliance"; "compliance_score"] ].

(** The numeric panels of an overview: its eight cards and the two figures
    of its forecast. *)
Definition numeric_panels (o : overview) : list (string * child) :=
  (((λ c, (card_title c, card_value c)) <$> (scores o ++ finances o)) ++
   [ ("Revenue", Value (forecast_revenue o));
     ("Expenses", Value (forecast_expenses o)) ])%list.

(** The rank of a colour in the palette of the gauges and in the palette
    of the ESG card, lowest tier first. *)
Definition gauge_rank (color : string) : nat :=
  if String.eqb color "#28a745" then 3
  else if String.eqb color "#007bff" then 2
  else if String.eqb color "#fd7e14" then 1
  else 0.

Definition esg_rank (color : string) : nat :=
  if String.eqb color "#22c55e" then 3
  else if String.eqb color "#3b82f6" then 2
  else if String.eqb color "#f59e0b" then 1
  else 0.

(** The separator of [split_lines], the number of its occurrences in a
    text, and whether a text holds one. *)
Definition newline : string := String "010"%char "".

Fixpoint count_newlines (s : string) : nat :=
  match s with
  | EmptyString => 0
  | String c rest =>
      if Ascii.eqb c "010"%char then S (count_newlines rest) else count_newlines rest
  end.

Definition has_newline (s : string) : bool :=
  negb (Nat.eqb (count_newlines s) 0).

(** Two panels end the same way: both with the all-clear view, both with
    the same entries, or both with the same exception. *)
Definition same_outcome (a b : completion panel) : Prop :=
  match a, b with
  | Normal (AllClear _ color1 _), Normal (AllClear _ color2 _) => color1 = color2
  | Normal (Alerts _ entries1), Normal (Alerts _ entries2) => entries1 = entries2
  | Throw e1, Throw e2 => e1 = e2
  | _, _ => False
  end.

(** A log of calls in which every analysis comes directly after an
    upload, all for business 1; the flag tells whether the last call is an
    upload. *)
Inductive call_log : list request → bool → Prop :=
  | log_empty : call_log [] false
  | log_upload l b f : call_log l b → call_log (l ++ [POST_upload 1 f]) true
  | log_analyze l : call_log l true → call_log (l ++ [POST_analyze 1]) false.

(** The bare host, except that [JSON.stringify] writes [text] and
    [JSON.parse] reads [text] as [v]; it is run on [v] only. *)
Definition host_exchanging (text : string) (v : value) : Runtime :=
  {| StringToNumber := λ _, NaN;
     ArrayToString := λ _, "";
     JSON_parse := λ s, if String.eqb s text then Some v else None;
     JSON_stringify := λ _, Some text |}.

(** ** Conversions that throw *)

(** Whether the conversion of a value to a text or to a number returns.
    It returns for every primitive value. An object is converted through
    [toString]; the values of a payload are never functions, so an object
    with an own [toString] property has none to call and its conversion
    throws a TypeError. A list is converted by joining the texts of its
    elements, so its conversion returns when theirs do. [ToNumber] above
    gives the Number converted to when the conversion returns. *)
Fixpoint stringifiable (v : value) : bool :=
  match v with
  | VArr items => forallb stringifiable items
  | VObj fields => negb (existsb (λ field, String.eqb field.1 "toString") fields)
  | _ => true
  end.

(** ToNumber, with the case in which it throws. *)
Definition to_number {rt : Runtime} (v : value) : completion number :=
  if stringifiable v then Normal (ToNumber v) else Throw TypeError.

(** ** Financial trend chart (App.jsx, second part) *)

(** The addition and the subtraction of the host on Numbers; they round,
    so they are taken from the host. *)
Class Arithmetic : Type := {
  number_add : number → number → number;
  number_sub : number → number → number
}.

(** [v - z] against a numeric literal: always numeric. *)
Definition minus_lit {rt : Runtime} {ar : Arithmetic} (v : value) (z : Z) :
    completion value :=
  n ← to_number v ;
  Normal (VNum (number_sub n (Finite (inject_Z z)))).

(** [v + z] against a numeric literal: a concatenation with the text of
    [z] when [v] is a string or converts to one (a list, an object), an
    addition otherwise. *)
Definition plus_lit {rt : Runtime} {ar : Arithmetic} (v : value) (z : Z) :
    completion value :=
  match v with
  | VStr s => Normal (VStr (s ++ pretty z))
  | VArr items =>
      if stringifiable v then Normal (VStr (ArrayToString items ++ pretty z))
      else Throw TypeError
  | VObj _ =>
      if stringifiable v then Normal (VStr ("[object Object]" ++ pretty z))
      else Throw TypeError
  | _ => Normal (VNum (number_add (ToNumber v) (Finite (inject_Z z))))
  end.

Module Trend.

Record point : Type := {
  name : string;
  revenue : value
}.

(** [FinancialTrendChart({ metrics })]: the [data] it gives its chart. *)
Definition FinancialTrendChart {rt : Runtime} {ar : Arithmetic}
    (metrics : value) : completion (list point) :=
  q1 ← member metrics "gross_margin" ;
  r1 ← minus_lit q1 5 ;
  q2 ← member metrics "gross_margin" ;
  r2 ← minus_lit q2 2 ;
  q3 ← member metrics "gross_margin" ;
  q4 ← member metrics "gross_margin" ;
  r4 ← plus_lit q4 3 ;
  Normal [ {| name := "Q1"; revenue := r1 |};
           {| name := "Q2"; revenue := r2 |};
           {| name := "Q3"; revenue := q3 |};
           {| name := "Q4"; revenue := r4 |} ].

End Trend.

(** An arithmetic for the examples: exact on finite numbers, NaN
    elsewhere. *)
Definition exact_arithmetic : Arithmetic :=
  {| number_add := λ a b,
       match a, b with Finite x, Finite y => Finite (x + y) | _, _ => NaN end;
     number_sub := λ a b,
       match a, b with Finite x, Finite y => Finite (x - y) | _, _ => NaN end |}.

(** ** Card (part_003) *)

(** What [Card] returns: its title, its value, and for
    [{subtitle && <p>...</p>}] either the falsy [subtitle] left in place or
    the paragraph of the subtitle. *)
Record card_element : Type := {
  element_title : string;
  element_value : child;
  element_subtitle : value + value
}.

Definition Card_body (props : card) : card_element :=
  {| element_title := card_title props;
     element_value := card_value props;
     element_subtitle :=
       if truthy (card_subtitle props) then inr (card_subtitle props)
       else inl (card_subtitle props) |}.

(** The cards of the results page in order, each with the path of the
    field it takes its subtitle from, if it takes one. *)
Definition subtitle_fields : list (string * option (list string)) :=
  [ ("Risk Score", Some ["risk"; "category"]);
    ("Investor Readiness", Some ["investor"; "category"]);
    ("ESG Score", Some ["esg"; "category"]);
    ("Survival Score", None);
    ("Net Cash Flow", Some ["cashflow"; "liquidity_status"]);
    ("Working Capital", Some ["working_capital"; "status"]);
    ("Compliance Score", None);
    ("Industry Percentile", None) ].

Global Instance completion_fmap : FMap completion := λ A B f c,
  match c with
  | Normal a => Normal (f a)
  | Throw e => Throw e
  end.

(** * Properties *)

(** ** Comparisons against a threshold *)

Section thresholds.
Context {rt : Runtime}.

Lemma ge_lit_above (q : Q) (z : Z) :
  (inject_Z z <= q)%Q → (VNum (Finite q) >=? z) = true.
Proof. intros Hle. unfold ge_lit; simpl. by apply Qle_bool_iff. Qed.

Lemma ge_lit_below (q : Q) (z : Z) :
  (q < inject_Z z)%Q → (VNum (Finite q) >=? z) = false.
Proof.
  intros Hlt. unfold ge_lit; simpl.
  destruct (Qle_bool (inject_Z z) q) eqn:Hb; [|done].
  apply Qle_bool_iff in Hb. by apply Qlt_not_le in Hlt.
Qed.

Lemma ge_lit_NaN (v : value) (z : Z) : ToNumber v = NaN → (v >=? z) = false.
Proof. intros Hv. unfold ge_lit. by rewrite Hv. Qed.

Lemma ge_lit_NegInfinity (v : value) (z : Z) :
  ToNumber v = NegInfinity → (v >=? z) = false.
Proof. intros Hv. unfold ge_lit. by rewrite Hv. Qed.

Lemma ge_lit_PosInfinity (v : value) (z : Z) :
  ToNumber v = PosInfinity → (v >=? z) = true.
Proof. intros Hv. unfold ge_lit. by rewrite Hv. Qed.

(** Below a threshold is below every larger one. *)
Lemma ge_lit_below_mono (q : Q) (z z' : Z) :
  (z <= z')%Z → (q < inject_Z z)%Q → (VNum (Finite q) >=? z') = false.
Proof.
  intros Hz Hq. apply ge_lit_below.
  eapply Qlt_le_trans; [exact Hq|]. by rewrite <- Zle_Qle.
Qed.

End thresholds.

(** ** Risk gauge *)

(** C2. The risk gauge is inclusive at its thresholds: a score of at least
    750 (up to +Infinity) is green, a score of at least 600 and below 750
    is orange, a score below 600 (down to -Infinity) is red, in the bar and
    in the figure alike; 750 and 10000 get the same colour, and 749.999
    gets another colour than 750. *)
Theorem risk_tiers_inclusive (rt : Runtime) (category : value) :
  let fill v := bar_fill (RiskGauge (VNum v) category) in
  let color v := figure_color (RiskGauge (VNum v) category) in
  (∀ q, (750 <= q)%Q →
     fill (Finite q) = "#28a745" ∧ color (Finite q) = "#28a745") ∧
  (∀ q, (600 <= q)%Q → (q < 750)%Q →
     fill (Finite q) = "#fd7e14" ∧ color (Finite q) = "#fd7e14") ∧
  (∀ q, (q < 600)%Q →
     fill (Finite q) = "#dc3545" ∧ color (Finite q) = "#dc3545") ∧
  (fill PosInfinity = "#28a745" ∧ color PosInfinity = "#28a745") ∧
  (fill NegInfinity = "#dc3545" ∧ color NegInfinity = "#dc3545") ∧
  (fill (Finite 750) = fill (Finite 10000) ∧
   color (Finite 750) = color (Finite 10000)) ∧
  (fill (Finite 749.999) ≠ fill (Finite 750) ∧
   color (Finite 749.999) ≠ color (Finite 750)).
Proof.
  cbn zeta. split_and!; try done.
  - intros q Hq. simpl. by rewrite (ge_lit_above q 750).
  - intros q Hlo Hhi. simpl.
    by rewrite (ge_lit_below q 750), (ge_lit_above q 600).
  - intros q Hq. simpl.
    by rewrite (ge_lit_below_mono q 600 750), (ge_lit_below q 600).
Qed.

(** The three branches of C2 at the scores 800, 650 and 100. *)
Lemma risk_tiers_inclusive_witness :
  bar_fill (@RiskGauge bare_host (num 800) VUndefined) = "#28a745" ∧
  bar_fill (@RiskGauge bare_host (num 650) VUndefined) = "#fd7e14" ∧
  bar_fill (@RiskGauge bare_host (num 100) VUndefined) = "#dc3545".
Proof.
  pose proof (risk_tiers_inclusive bare_host VUndefined) as (Hg & Ho & Hr & _).
  split; [|split].
  - apply (Hg 800%Q). by vm_compute.
  - apply (Ho 650%Q); by vm_compute.
  - apply (Hr 100%Q). by vm_compute.
Defined.

(** ** Scores that are not finite numbers *)

(** C3, as stated, fails at +Infinity, which is not a finite number and
    satisfies every threshold: the four classifications give their top
    colour, not their lowest. *)
Lemma infinite_score_top_tier :
  bar_fill (@RiskGauge bare_host (VNum PosInfinity) VUndefined) = "#28a745" ∧
  bar_fill (@RiskGauge bare_host (VNum PosInfinity) VUndefined) ≠ "#dc3545" ∧
  bar_fill (@InvestorGauge bare_host (VNum PosInfinity) VUndefined) ≠ "#dc3545" ∧
  bar_fill (@SurvivalGauge bare_host (VNum PosInfinity)) ≠ "#dc3545" ∧
  @ESG.getColor bare_host (VNum PosInfinity) ≠ "#ef4444".
Proof. by vm_compute. Qed.

(** C3, amended. Take a score whose conversion to a number returns: any
    primitive value, or an object or list in which no object has an own
    [toString] property. The classification does not fail on it. If it
    converts to NaN (NaN itself, undefined) or to -Infinity, it fails every
    threshold comparison and gets the lowest colour of each of the four
    classifications; if it converts to +Infinity, it passes the first
    comparison and gets the top colour. *)
Theorem nonfinite_score_tiers (rt : Runtime) (score category : value) :
  stringifiable score = true →
  to_number score = Normal (ToNumber score) ∧
  (ToNumber score = NaN ∨ ToNumber score = NegInfinity →
     bar_fill (RiskGauge score category) = "#dc3545" ∧
     figure_color (RiskGauge score category) = "#dc3545" ∧
     bar_fill (InvestorGauge score category) = "#dc3545" ∧
     figure_color (InvestorGauge score category) = "#dc3545" ∧
     bar_fill (SurvivalGauge score) = "#dc3545" ∧
     figure_color (SurvivalGauge score) = "#dc3545" ∧
     caption (SurvivalGauge score) = VStr "High Risk" ∧
     ESG.getColor score = "#ef4444" ∧
     (esg_color <$> ESG.ESGCard (VObj [("score", score)])) = element "#ef4444") ∧
  (ToNumber score = PosInfinity →
     bar_fill (RiskGauge score category) = "#28a745" ∧
     figure_color (RiskGauge score category) = "#28a745" ∧
     bar_fill (InvestorGauge score category) = "#28a745" ∧
     figure_color (InvestorGauge score category) = "#28a745" ∧
     bar_fill (SurvivalGauge score) = "#28a745" ∧
     figure_color (SurvivalGauge score) = "#28a745" ∧
     caption (SurvivalGauge score) = VStr "Stable" ∧
     ESG.getColor score = "#22c55e" ∧
     (esg_color <$> ESG.ESGCard (VObj [("score", score)])) = element "#22c55e").
Proof.
  intros Hconv. split_and!.
  - unfold to_number. by rewrite Hconv.
  - intros Hlow.
    assert (∀ z, (score >=? z) = false) as Hno.
    { intros z. destruct Hlow; [by apply ge_lit_NaN | by apply ge_lit_NegInfinity]. }
    unfold ESG.ESGCard, ESG.getColor; simpl. by rewrite !Hno.
  - intros Hinf.
    assert (∀ z, (score >=? z) = true) as Hyes.
    { intros z. by apply ge_lit_PosInfinity. }
    unfold ESG.ESGCard, ESG.getColor; simpl. by rewrite !Hyes.
Qed.

(** C3 amended, at [undefined] (which converts to NaN) and at +Infinity. *)
Lemma nonfinite_score_tiers_witness :
  @ESG.getColor bare_host VUndefined = "#ef4444" ∧
  @ESG.getColor bare_host (VNum PosInfinity) = "#22c55e".
Proof.
  split.
  - apply (nonfinite_score_tiers bare_host VUndefined VUndefined eq_refl).
    left. reflexivity.
  - apply (nonfinite_score_tiers bare_host (VNum PosInfinity) VUndefined eq_refl).
    reflexivity.
Defined.

(** ** Severity colours *)

Lemma is_str_true (v : value) (lit : string) : (v === lit) = true ↔ v = VStr lit.
Proof.
  destruct v; simpl; try (split; [done | congruence]).
  rewrite String.eqb_eq. split; congruence.
Qed.

Lemma is_str_false (v : value) (lit : string) : v ≠ VStr lit → (v === lit) = false.
Proof.
  intros Hne. destruct (v === lit) eqn:Hb; [|done].
  by apply is_str_true in Hb.
Qed.

(** C4. Both alert panels colour a severity the same way: "Critical",
    "High" and "Medium" have a colour each, matched exactly, the four
    colours differ, and any other value ("Low", an unknown string, a value
    that is not a string) gets the blue default; the function is total. *)
Theorem severity_colors (severity : value) :
  Warning.getSeverityColor severity = Fraud.getSeverityColor severity ∧
  (severity = VStr "Critical" → Fraud.getSeverityColor severity = "#ef4444") ∧
  (severity = VStr "High" → Fraud.getSeverityColor severity = "#dc2626") ∧
  (severity = VStr "Medium" → Fraud.getSeverityColor severity = "#f59e0b") ∧
  (severity ≠ VStr "Critical" → severity ≠ VStr "High" →
   severity ≠ VStr "Medium" → Fraud.getSeverityColor severity = "#3b82f6") ∧
  Fraud.getSeverityColor (VStr "Low") = "#3b82f6" ∧
  NoDup (Fraud.getSeverityColor <$>
           [VStr "Critical"; VStr "High"; VStr "Medium"; VStr "Low"]).
Proof.
  split_and!; try done.
  - by intros ->.
  - by intros ->.
  - by intros ->.
  - intros H1 H2 H3. unfold Fraud.getSeverityColor.
    by rewrite !is_str_false.
  - compute_done.
Qed.

(** C4 at the three matched severities, at a lower-case "critical" and at
    [undefined]. *)
Lemma severity_colors_witness :
  Fraud.getSeverityColor (VStr "Critical") = "#ef4444" ∧
  Fraud.getSeverityColor (VStr "High") = "#dc2626" ∧
  Fraud.getSeverityColor (VStr "Medium") = "#f59e0b" ∧
  Fraud.getSeverityColor (VStr "critical") = "#3b82f6" ∧
  Fraud.getSeverityColor VUndefined = "#3b82f6".
Proof.
  split_and!.
  - by apply (severity_colors (VStr "Critical")).
  - by apply (severity_colors (VStr "High")).
  - by apply (severity_colors (VStr "Medium")).
  - by apply (severity_colors (VStr "critical")).
  - by apply (severity_colors VUndefined).
Defined.

(** ** Alert panels *)

Lemma nonempty_length_nonzero (items : list value) :
  items ≠ [] → is_num (getProp (VArr items) "length") 0 = false.
Proof. by destruct items. Qed.

Lemma entries_of_objects (colour : value → string) (items : list value) :
  Forall not_nullish items →
  ∃ entries,
    mapM (M := completion) (λ flag,
      severity ← member flag "severity" ;
      type ← member flag "type" ;
      message ← member flag "message" ;
      Normal {|
        border_left := "6px solid " ++ colour severity;
        alert_type := type;
        badge_background := colour severity;
        badge_text := severity;
        alert_body := or_else message (getProp flag "description")
      |}) items = Normal entries ∧
    Forall2 (entry_of colour) items entries.
Proof.
  induction 1 as [|item items [Hu Hn] _ (entries & Hmap & Hall)].
  - by exists [].
  - eexists (_ :: entries). cbn [mapM]. rewrite Hmap.
    split; [by destruct item|].
    constructor; [|done]. by destruct item.
Qed.

(** C5, as stated, fails on the distinction it draws: the view of the
    empty list is the very view the panel gives when its input is absent.
    It also fails on a list that holds [null], for which the panel throws
    instead of producing an entry. *)
Lemma all_clear_also_when_absent :
  Warning.WarningPanel (VArr []) = Warning.WarningPanel VUndefined ∧
  Fraud.FraudPanel (VArr []) = Fraud.FraudPanel VUndefined ∧
  Warning.WarningPanel (VArr [VNull]) = Throw TypeError ∧
  Fraud.FraudPanel (VArr [VNull]) = Throw TypeError.
Proof. done. Qed.

(** C5, amended. For the empty list each panel returns its "all clear"
    view, a green confirmation message; it returns that same view for an
    absent (falsy) input, so the two are not told apart. For a non-empty
    list whose elements are neither null nor undefined it returns the alert
    view with one entry per element, in order, built from that element. *)
Theorem alert_panel_views (items : list value) (absent : value) :
  Warning.WarningPanel (VArr []) =
    Normal (AllClear "Early Warning System" "#22c55e" "✅ No active financial warnings") ∧
  Fraud.FraudPanel (VArr []) =
    Normal (AllClear "Fraud Detection" "#22c55e" "✅ No fraud risks detected") ∧
  (truthy absent = false →
     Warning.WarningPanel absent = Warning.WarningPanel (VArr []) ∧
     Fraud.FraudPanel absent = Fraud.FraudPanel (VArr [])) ∧
  (items ≠ [] → Forall not_nullish items →
     ∃ warnings frauds,
       Warning.WarningPanel (VArr items) = Normal (Alerts "Early Warning Alerts" warnings) ∧
       Forall2 (entry_of Warning.getSeverityColor) items warnings ∧
       length warnings = length items ∧
       Fraud.FraudPanel (VArr items) = Normal (Alerts "Fraud & Anomaly Alerts" frauds) ∧
       Forall2 (entry_of Fraud.getSeverityColor) items frauds ∧
       length frauds = length items).
Proof.
  split_and!; try done.
  - intros Hf. unfold Warning.WarningPanel, Fraud.FraudPanel. by rewrite Hf.
  - intros Hne Hobj.
    destruct (entries_of_objects Warning.getSeverityColor items Hobj)
      as (warnings & Hw & Hwall).
    destruct (entries_of_objects Fraud.getSeverityColor items Hobj)
      as (frauds & Hf & Hfall).
    exists warnings, frauds.
    unfold Warning.WarningPanel, Fraud.FraudPanel, call_map.
    rewrite (nonempty_length_nonzero items Hne), Hw, Hf.
    split_and!; try done; symmetry; by eapply Forall2_length.
Qed.

(** C5 amended, at [null] and at a list of one critical warning. *)
Lemma alert_panel_views_witness :
  Fraud.FraudPanel VNull = Fraud.FraudPanel (VArr []) ∧
  ∃ frauds,
    Fraud.FraudPanel (VArr [VObj [("severity", VStr "Critical")]]) =
      Normal (Alerts "Fraud & Anomaly Alerts" frauds) ∧
    length frauds = 1.
Proof.
  pose proof (alert_panel_views [VObj [("severity", VStr "Critical")]] VNull)
    as (_ & _ & Habsent & Hitems).
  split.
  - by apply Habsent.
  - destruct Hitems as (warnings & frauds & _ & _ & _ & Hf & _ & Hlen).
    + done.
    + by repeat constructor.
    + by exists frauds.
Defined.

(** ** Panels that hide themselves *)

(** C10. When the [esg] prop is absent or null the ESG card returns
    [null], and when the [summary] prop is absent or null the AI summary
    returns [null]: the panel is hidden instead of shown with defaults. *)
Theorem missing_panel_hidden (rt : Runtime) (prop : value) :
  prop = VUndefined ∨ prop = VNull →
  ESG.ESGCard prop = null ∧ AISummary prop = Normal null.
Proof. by intros [-> | ->]. Qed.

(** C10 on the payload [{}], whose [esg] and [ai_summary] are absent. *)
Lemma missing_panel_hidden_witness :
  @ESG.ESGCard bare_host (getProp (VObj []) "esg") = null ∧
  AISummary (getProp (VObj []) "ai_summary") = Normal null.
Proof.
  split.
  - apply (missing_panel_hidden bare_host (getProp (VObj []) "esg")).
    left. reflexivity.
  - apply (missing_panel_hidden bare_host (getProp (VObj []) "ai_summary")).
    left. reflexivity.
Defined.

(** ** Upload workflow *)

Lemma step_loading_tracks_flight (rt : Runtime) (pg : upload_page) (ev : event) :
  loading_tracks_flight pg → loading_tracks_flight (step pg ev).
Proof.
  unfold loading_tracks_flight, in_flight. intros Hinv.
  destruct ev as [f | | r | r]; simpl.
  - done.
  - destruct (loading pg) eqn:Hl; [by rewrite Hl|].
    unfold handleUpload. destruct (file pg); simpl; by rewrite ?Hl.
  - destruct (pending pg) eqn:Hp; rewrite ?Hinv, ?Hp; try done.
    by destruct r.
  - destruct (pending pg) eqn:Hp; rewrite ?Hinv, ?Hp; try done.
    by destruct r.
Qed.

Lemma run_loading_tracks_flight (rt : Runtime) (evs : list event) (pg : upload_page) :
  loading_tracks_flight pg → loading_tracks_flight (run pg evs).
Proof.
  revert pg. induction evs as [|ev evs IH]; intros pg Hinv; [done|].
  apply IH. by apply step_loading_tracks_flight.
Qed.

Lemma run_app (rt : Runtime) (pg : upload_page) (evs evs' : list event) :
  run pg (evs ++ evs') = run (run pg evs) evs'.
Proof. apply foldl_app. Qed.

(** The upload that succeeds asks for the analysis; the analysis that
    succeeds stores its payload and goes to the results. *)
Lemma upload_success_requests_analysis (rt : Runtime) (pg : upload_page) (res : response) :
  pending pg = Uploading →
  step pg (UploadSettled (Fulfilled res)) =
    suspend Analyzing (call (POST_analyze 1) pg).
Proof. intros Hp. simpl. by rewrite Hp. Qed.

Lemma analysis_success_commits (rt : Runtime) (pg : upload_page) (res : response) :
  pending pg = Analyzing →
  let pg' := step pg (AnalysisSettled (Fulfilled res)) in
  getItem (localStorage pg') "analysis" =
    Some (default "undefined" (JSON_stringify (data res))) ∧
  location pg' = "/results" ∧
  pending pg' = Idle ∧ loading pg' = false ∧
  alerts pg' = alerts pg.
Proof.
  intros Hp. cbn zeta. simpl. rewrite Hp. simpl.
  split_and!; try done. unfold getItem. by rewrite lookup_insert_eq.
Qed.

(** [handleUpload] itself never tests [loading]: were it called while the
    analysis is awaited, it would upload again. *)
Lemma handleUpload_tests_no_flight :
  requests (handleUpload analyzing_page) =
    (requests analyzing_page ++ [POST_upload 1 {| file_name := "ledger.csv" |}])%list.
Proof. done. Qed.

(** C6, as stated, fails on the message: the click without a file
    surfaces "Please select a file.", and "no file selected" is surfaced
    nowhere. *)
Lemma no_file_other_message :
  alerts (@step bare_host upload_initial ClickAnalyze) = [VStr "Please select a file."] ∧
  VStr "no file selected" ∉ alerts (@step bare_host upload_initial ClickAnalyze).
Proof.
  split; [done|]. simpl. rewrite list_elem_of_singleton. congruence.
Qed.

(** C6, amended. A submit with no file selected, made while nothing is in
    flight, returns at once after the alert "Please select a file."; it
    raises nothing, the workflow stays idle, and no call is issued:
    nothing else on the page changes. *)
Theorem submit_without_file (rt : Runtime) (pg : upload_page) :
  file pg = None → pending pg = Idle → loading pg = false →
  step pg ClickAnalyze = handleUpload pg ∧
  handleUpload pg = alert (VStr "Please select a file.") pg ∧
  alerts (handleUpload pg) = (alerts pg ++ [VStr "Please select a file."])%list ∧
  pending (handleUpload pg) = Idle ∧
  loading (handleUpload pg) = false ∧
  requests (handleUpload pg) = requests pg ∧
  localStorage (handleUpload pg) = localStorage pg ∧
  location (handleUpload pg) = location pg.
Proof.
  intros Hfile Hidle Hload. unfold step, handleUpload.
  rewrite Hfile, Hload. by split_and!.
Qed.

(** C6 amended, on the page as the session opens it. *)
Lemma submit_without_file_witness :
  requests (handleUpload upload_initial) = [] ∧
  pending (handleUpload upload_initial) = Idle.
Proof.
  pose proof (submit_without_file bare_host upload_initial eq_refl eq_refl eq_refl)
    as (_ & _ & _ & Hp & _ & Hr & _).
  split; [exact Hr | exact Hp].
Defined.

Lemma or_else_truthy (a b : value) : truthy a = true → or_else a b = a.
Proof. intros Ha. unfold or_else. by rewrite Ha. Qed.

Lemma or_else_falsy (a b : value) : truthy a = false → or_else a b = b.
Proof. intros Ha. unfold or_else. by rewrite Ha. Qed.

Lemma truthy_nonempty (s : string) : s ≠ "" → truthy (VStr s) = true.
Proof. intros Hs. simpl. by apply String.eqb_neq in Hs as ->. Qed.

(** C7, as stated, fails when the service reports a [detail] that is
    truthy and not a string. For the list of problems of a 422 answer the
    list itself is alerted: no string of the service, and not the fallback
    either. For a [detail] that is [true] beside a [message] string, [true]
    is alerted and the message is not. *)
Lemma truthy_detail_alerted_as_it_is :
  alerts (@step bare_host uploading_page (UploadSettled (Rejected validation_error))) =
    [VArr [VObj [("msg", VStr "field required")]]] ∧
  detail validation_error ≠ VStr "Request failed with status code 422" ∧
  detail validation_error ≠ VStr "Upload or analysis failed." ∧
  detail (VObj [("response",
                 VObj [("data", VObj [("detail", VBool true);
                                      ("message", VStr "file rejected")])])]) =
    VBool true.
Proof. done. Qed.

(** C7, amended. When the upload or the analysis fails, and the value to
    alert can be converted to a text, the workflow alerts that one value
    and is idle again; nothing is stored, the route is kept, no call is
    issued. The value is the first truthy one among the [detail] the
    service reported, the [message] it reported and the message of the
    error itself, and "Upload or analysis failed." when none is truthy. So
    a non-empty [detail] string is alerted verbatim, as is a non-empty
    [message] string when the [detail] is falsy, while a truthy [detail]
    that is not a string is alerted as it is. *)
Theorem failure_surfaces_detail (rt : Runtime) (pg : upload_page) (err : value) :
  stringifiable (detail err) = true →
  let reported := opt (opt err "response") "data" in
  (pending pg = Uploading → step pg (UploadSettled (Rejected err)) = catch err pg) ∧
  (pending pg = Analyzing → step pg (AnalysisSettled (Rejected err)) = catch err pg) ∧
  alerts (catch err pg) = (alerts pg ++ [detail err])%list ∧
  pending (catch err pg) = Idle ∧
  loading (catch err pg) = false ∧
  localStorage (catch err pg) = localStorage pg ∧
  location (catch err pg) = location pg ∧
  requests (catch err pg) = requests pg ∧
  (truthy (opt reported "detail") = true → detail err = opt reported "detail") ∧
  (truthy (opt reported "detail") = false →
   truthy (opt reported "message") = true → detail err = opt reported "message") ∧
  (truthy (opt reported "detail") = false →
   truthy (opt reported "message") = false →
   truthy (opt err "message") = true → detail err = opt err "message") ∧
  (truthy (opt reported "detail") = false →
   truthy (opt reported "message") = false →
   truthy (opt err "message") = false →
   detail err = VStr "Upload or analysis failed.") ∧
  (∀ s, s ≠ "" → opt reported "detail" = VStr s → detail err = VStr s) ∧
  (∀ s, s ≠ "" → truthy (opt reported "detail") = false →
        opt reported "message" = VStr s → detail err = VStr s).
Proof.
  intros _. cbn zeta. split_and!; try done.
  - intros Hp. simpl. by rewrite Hp.
  - intros Hp. simpl. by rewrite Hp.
  - intros Hd. unfold detail. by rewrite !(or_else_truthy _ _ Hd).
  - intros Hd Hm. unfold detail.
    by rewrite (or_else_falsy _ _ Hd), !(or_else_truthy _ _ Hm).
  - intros Hd Hm He. unfold detail.
    by rewrite (or_else_falsy _ _ Hd), (or_else_falsy _ _ Hm), (or_else_truthy _ _ He).
  - intros Hd Hm He. unfold detail.
    by rewrite (or_else_falsy _ _ Hd), (or_else_falsy _ _ Hm), (or_else_falsy _ _ He).
  - intros s Hs Hd. unfold detail. rewrite Hd.
    by rewrite !(or_else_truthy (VStr s)) by by apply truthy_nonempty.
  - intros s Hs Hd Hm. unfold detail.
    rewrite (or_else_falsy _ _ Hd), Hm.
    by rewrite !(or_else_truthy (VStr s)) by by apply truthy_nonempty.
Qed.

(** C7 amended, on the analysis that fails with "model unavailable", on
    an upload that is rejected with a message, with a list of problems or
    with [true], and on one that gets no answer. *)
Lemma failure_surfaces_detail_witness :
  @step bare_host analyzing_page (AnalysisSettled (Rejected model_unavailable)) =
    catch model_unavailable analyzing_page ∧
  detail model_unavailable = VStr "model unavailable" ∧
  @step bare_host uploading_page (UploadSettled (Rejected file_rejected)) =
    catch file_rejected uploading_page ∧
  detail file_rejected = VStr "file rejected" ∧
  detail validation_error = VArr [VObj [("msg", VStr "field required")]] ∧
  detail network_error = VStr "Network Error" ∧
  detail VUndefined = VStr "Upload or analysis failed.".
Proof.
  split_and!.
  - by apply (failure_surfaces_detail bare_host analyzing_page model_unavailable).
  - pose proof (failure_surfaces_detail bare_host analyzing_page model_unavailable
                  eq_refl)
      as (_ & _ & _ & _ & _ & _ & _ & _ & _ & _ & _ & _ & Hdetail & _).
    apply Hdetail; [discriminate | reflexivity].
  - by apply (failure_surfaces_detail bare_host uploading_page file_rejected).
  - pose proof (failure_surfaces_detail bare_host uploading_page file_rejected eq_refl)
      as (_ & _ & _ & _ & _ & _ & _ & _ & _ & _ & _ & _ & _ & Hmessage).
    apply Hmessage; [discriminate | reflexivity | reflexivity].
  - pose proof (failure_surfaces_detail bare_host uploading_page validation_error
                  eq_refl)
      as (_ & _ & _ & _ & _ & _ & _ & _ & Htruthy & _).
    apply Htruthy. reflexivity.
  - pose proof (failure_surfaces_detail bare_host uploading_page network_error eq_refl)
      as (_ & _ & _ & _ & _ & _ & _ & _ & _ & _ & Herror & _).
    apply Herror; reflexivity.
  - pose proof (failure_surfaces_detail bare_host uploading_page VUndefined eq_refl)
      as (_ & _ & _ & _ & _ & _ & _ & _ & _ & _ & _ & Hfallback & _).
    apply Hfallback; reflexivity.
Defined.

(** C8, as stated, fails on the rejection: a click while the analysis is
    in flight leaves the page as it is and surfaces no error at all. *)
Lemma click_in_flight_no_error :
  pending analyzing_page = Analyzing ∧
  @step bare_host analyzing_page ClickAnalyze = analyzing_page ∧
  alerts (@step bare_host analyzing_page ClickAnalyze) = [].
Proof. done. Qed.

(** C8, amended. A click made while an operation is in flight (uploading
    or analyzing) is ignored, the button being disabled: no error is
    raised or surfaced, the page with its in-flight operation is unchanged,
    and the click is not queued, since whatever happens next happens as if
    there had been no click. *)
Theorem click_in_flight_ignored (rt : Runtime) (before after : list event) :
  pending (run upload_initial before) ≠ Idle →
  step (run upload_initial before) ClickAnalyze = run upload_initial before ∧
  run upload_initial (before ++ ClickAnalyze :: after) =
    run upload_initial (before ++ after).
Proof.
  intros Hflight.
  assert (step (run upload_initial before) ClickAnalyze = run upload_initial before)
    as Hstep.
  { pose proof (run_loading_tracks_flight rt before upload_initial eq_refl) as Hinv.
    unfold loading_tracks_flight, in_flight in Hinv. simpl. rewrite Hinv.
    by destruct (pending (run upload_initial before)). }
  split; [done|].
  rewrite !run_app. simpl. fold (run (rt := rt)) in *. simpl in Hstep.
  by rewrite Hstep.
Qed.

(** C8 amended, while the upload is in flight. *)
Lemma click_in_flight_ignored_witness :
  let before := [ChooseFile (Some {| file_name := "ledger.csv" |}); ClickAnalyze] in
  @step bare_host (@run bare_host upload_initial before) ClickAnalyze =
    @run bare_host upload_initial before.
Proof.
  apply (click_in_flight_ignored bare_host
           [ChooseFile (Some {| file_name := "ledger.csv" |}); ClickAnalyze] []).
  simpl. discriminate.
Defined.

(** ** Results page and the stored analysis *)

Lemma step_stores_nothing (rt : Runtime) (pg : upload_page) (ev : event) :
  completes ev = false →
  localStorage (step pg ev) = localStorage pg.
Proof.
  intros Hev. destruct ev as [f | | r | r]; simpl.
  - done.
  - destruct (loading pg); [done|].
    unfold handleUpload. by destruct (file pg).
  - destruct (pending pg); try done. by destruct r.
  - destruct (pending pg); try done. by destruct r.
Qed.

Lemma run_stores_nothing (rt : Runtime) (evs : list event) (pg : upload_page) :
  Forall (λ ev, completes ev = false) evs →
  localStorage (run pg evs) = localStorage pg.
Proof.
  intros Hevs. revert pg.
  induction Hevs as [|ev evs Hev _ IH]; intros pg; [done|].
  simpl. fold (run (rt := rt)). by rewrite IH, step_stores_nothing.
Qed.

(** C9, as stated, fails for a store that holds an entry an earlier
    session left: no analysis completes in the session, yet the results
    page does not redirect and returns an overview, here the overview of
    zeros of the stored payload [{}]. *)
Lemma stale_entry_shown :
  let evs := [ChooseFile (Some {| file_name := "ledger.csv" |});
              ClickAnalyze;
              UploadSettled (Rejected network_error)] in
  let host := host_reading "{}" (VObj []) in
  Forall (λ ev, completes ev = false) evs ∧
  @ResultsPage_effect host
    (localStorage (@run host (opened_on {["analysis" := "{}"]}) evs))
    results_initial = Normal {| analysis := VObj []; route := "/results" |} ∧
  ∃ o, ResultsPage (VObj []) = Shown o ∧
       card_value <$> scores o !! 0%nat = Some (Value (num 0)).
Proof.
  cbn zeta. split_and!; [by repeat constructor | reflexivity | by eexists].
Qed.

(** C9, amended. The entry "analysis" of the store is what decides, and a
    session in which no analysis completes leaves the store as it found
    it. When the store holds no such entry, the results page mounted on it
    goes to "/", the route of the upload page, and keeps its [analysis]
    null, for which it returns the loading placeholder, never an overview
    of defaults. It returns an overview only for an analysis parsed from
    the stored entry. *)
Theorem results_need_snapshot (rt : Runtime) (evs : list event) (pg : upload_page)
    (storage : gmap string string) (st : results_state) :
  (Forall (λ ev, completes ev = false) evs →
     localStorage (run pg evs) = localStorage pg) ∧
  (Forall (λ ev, completes ev = false) evs →
   getItem (localStorage pg) "analysis" = None →
     getItem (localStorage (run pg evs)) "analysis" = None) ∧
  (getItem storage "analysis" = None →
     ResultsPage_effect storage results_initial =
       Normal {| analysis := VNull; route := "/" |}) ∧
  App "/" = Some UploadPage ∧
  ResultsPage VNull = Loading "Loading..." ∧
  (ResultsPage_effect storage results_initial = Normal st →
   (∃ o, ResultsPage (analysis st) = Shown o) →
     ∃ text, getItem storage "analysis" = Some text ∧
             JSON_parse text = Some (analysis st) ∧
             route st = "/results").
Proof.
  split_and!; try done.
  - intros Hevs. by apply run_stores_nothing.
  - intros Hevs Hnone. by rewrite run_stores_nothing.
  - intros Hnone. unfold ResultsPage_effect. by rewrite Hnone.
  - unfold ResultsPage_effect.
    destruct (getItem storage "analysis") as [text|] eqn:Hget; simpl.
    + destruct (negb (text =? "")); simpl.
      * destruct (JSON_parse text) as [parsed|] eqn:Hparse; [|done].
        intros [= <-] _. by exists text.
      * by intros [= <-] [o Ho].
    + by intros [= <-] [o Ho].
Qed.

(** C9 amended, on a session that found the store empty and in which a
    file was chosen and its upload failed, and on a store that holds the
    text of the payload [{}]. *)
Lemma results_need_snapshot_witness :
  let evs := [ChooseFile (Some {| file_name := "ledger.csv" |});
              ClickAnalyze;
              UploadSettled (Rejected VUndefined)] in
  @ResultsPage_effect bare_host (localStorage (@run bare_host (opened_on ∅) evs))
    results_initial = Normal {| analysis := VNull; route := "/" |} ∧
  ∃ text, getItem {["analysis" := "{}"]} "analysis" = Some text ∧
          @JSON_parse (host_reading "{}" (VObj [])) text = Some (VObj []).
Proof.
  cbn zeta. split.
  - pose proof (results_need_snapshot bare_host
      [ChooseFile (Some {| file_name := "ledger.csv" |});
       ClickAnalyze;
       UploadSettled (Rejected VUndefined)]
      (opened_on ∅)
      (localStorage (@run bare_host (opened_on ∅)
         [ChooseFile (Some {| file_name := "ledger.csv" |});
          ClickAnalyze;
          UploadSettled (Rejected VUndefined)]))
      results_initial) as (_ & Hstore & Heffect & _).
    apply Heffect. apply Hstore; [by repeat constructor | reflexivity].
  - pose proof (results_need_snapshot (host_reading "{}" (VObj [])) [] (opened_on ∅)
      {["analysis" := "{}"]} {| analysis := VObj []; route := "/results" |})
      as (_ & _ & _ & _ & _ & Hshown).
    destruct Hshown as (text & Hget & Hparse & _).
    + reflexivity.
    + eexists. reflexivity.
    + by exists text.
Defined.

(** ** Absent fields *)

Lemma nullish_missing (v d : value) : missing v → nullish v d = d.
Proof. by intros [-> | ->]. Qed.

Lemma nullish_present (v d : value) : ¬ missing v → nullish v d = v.
Proof. unfold missing. intros Hv. destruct v; try done; naive_solver. Qed.

(** C1, as stated, fails on the dashboard: for the payload [{}] it passes
    every absent score on as [undefined], not as 0; only the percentile and
    the forecast series are defaulted. *)
Lemma dashboard_absent_scores_undefined :
  @Dashboard bare_host (VObj []) =
    Normal (Shown {|
      metrics := [
        MetricCard "Risk Score" (Value VUndefined) VUndefined;
        MetricCard "Investor Readiness" (Value VUndefined) VUndefined;
        MetricCard "ESG Score" (Value VUndefined) VUndefined;
        MetricCard "Survival Score" (Value VUndefined) VUndefined;
        MetricCard "Net Cash Flow" (Value VUndefined) VUndefined;
        MetricCard "Working Capital" (Value VUndefined) VUndefined;
        MetricCard "Compliance Score" (Value VUndefined) VUndefined;
        MetricCard "Industry Percentile" (Template (num 0) "%") VUndefined ];
      forecastData := [];
      products := NoProducts "No suitable financial products recommended.";
      ai_summary := VUndefined |}) ∧
  Value VUndefined ≠ Value (num 0).
Proof. done. Qed.

(** C1, amended. On the results page every numeric field missing from the
    payload is shown as 0 and every field present is shown as it is, each
    in its own panel and the percentile alone followed by "%"; the payload
    [{}] is presented without failure with 0 in all ten numeric panels.
    The dashboard does not fail on [{}] either. It passes each of its seven
    score fields to its card as it is, [undefined] when absent; it shows
    the percentile followed by "%", and 0 followed by "%" when the
    percentile is missing or falsy; and it gives its chart an empty series
    when the forecast series is missing. *)
Theorem absent_fields_defaulted (rt : Runtime) (analysis data : value)
    (o : overview) (d : dashboard) :
  (ResultsPage analysis = Shown o →
     Forall2 (λ field panel,
        panel.1 = panel_title field ∧
        (missing (lookup_path analysis (field_path field)) →
           panel.2 = panel_form field (num 0)) ∧
        (¬ missing (lookup_path analysis (field_path field)) →
           panel.2 = panel_form field (lookup_path analysis (field_path field))))
       numeric_fields (numeric_panels o)) ∧
  ResultsPage (VObj []) =
    Shown {|
      scores := [ Card "Risk Score" (Value (num 0)) (VStr "");
                  Card "Investor Readiness" (Value (num 0)) (VStr "");
                  Card "ESG Score" (Value (num 0)) (VStr "");
                  Card "Survival Score" (Value (num 0)) VUndefined ];
      finances := [ Card "Net Cash Flow" (Value (num 0)) (VStr "");
                    Card "Working Capital" (Value (num 0)) (VStr "");
                    Card "Compliance Score" (Value (num 0)) VUndefined;
                    Card "Industry Percentile" (Template (num 0) "%") VUndefined ];
      product := VStr "N/A";
      product_reason := VStr "";
      forecast_revenue := num 0;
      forecast_expenses := num 0;
      summary := VStr "" |} ∧
  (Dashboard data = Normal (Shown d) →
     (∃ cards percentile,
        metrics d = (cards ++ [percentile])%list ∧
        Forall2 (λ field c,
           card_title c = panel_title field ∧
           card_value c = Value (lookup_path data (field_path field)))
          dashboard_fields cards ∧
        card_title percentile = "Industry Percentile" ∧
        (truthy (lookup_path data ["benchmarking"; "industry_percentile"]) = true →
           card_value percentile =
             Template (lookup_path data ["benchmarking"; "industry_percentile"]) "%") ∧
        (truthy (lookup_path data ["benchmarking"; "industry_percentile"]) = false →
           card_value percentile = Template (num 0) "%")) ∧
     (missing (lookup_path data ["forecast"; "revenue_forecast"; "future"]) →
        forecastData d = [])) ∧
  Dashboard (VObj []) =
    Normal (Shown {|
      metrics := [
        MetricCard "Risk Score" (Value VUndefined) VUndefined;
        MetricCard "Investor Readiness" (Value VUndefined) VUndefined;
        MetricCard "ESG Score" (Value VUndefined) VUndefined;
        MetricCard "Survival Score" (Value VUndefined) VUndefined;
        MetricCard "Net Cash Flow" (Value VUndefined) VUndefined;
        MetricCard "Working Capital" (Value VUndefined) VUndefined;
        MetricCard "Compliance Score" (Value VUndefined) VUndefined;
        MetricCard "Industry Percentile" (Template (num 0) "%") VUndefined ];
      forecastData := [];
      products := NoProducts "No suitable financial products recommended.";
      ai_summary := VUndefined |}).
Proof.
  split_and!; [| done | | done].
  - unfold ResultsPage. destruct (negb (truthy analysis)); [done|].
    intros [= <-]. unfold numeric_fields, numeric_panels, lookup_path. simpl.
    repeat (constructor;
      [split; [done|]; split; intros Hm;
         [by rewrite nullish_missing | by rewrite nullish_present]|]).
    constructor.
  - unfold Dashboard.
    destruct (truthy data) eqn:Htruthy; simpl; [|done].
    assert (∀ k, opt data k = getProp data k) as Hopt by by destruct data.
    unfold lookup_path; simpl. rewrite !Hopt.
    destruct (opt_map_or_empty _ _) as [forecast|] eqn:Hforecast; [|done]. simpl.
    destruct (if gt_lit _ _ then _ else _) as [recommended|]; [|done]. simpl.
    intros [= <-]. simpl. split.
    + eexists [_; _; _; _; _; _; _], _. split; [reflexivity|].
      split.
      { unfold dashboard_fields.
        repeat (constructor; [split; [done|]; simpl; by rewrite ?Hopt|]).
        constructor. }
      split; [done|].
      split; intros Ht; simpl; by rewrite ?(or_else_truthy _ _ Ht), ?(or_else_falsy _ _ Ht).
    + intros Hmissing. unfold opt_map_or_empty in Hforecast.
      by destruct Hmissing as [Hm | Hm]; rewrite Hm in Hforecast;
        injection Hforecast as <-.
Qed.

(** C1 amended, on a payload that has a risk score and nothing else, and
    on the dashboard of a payload that has a percentile and nothing else. *)
Lemma absent_fields_defaulted_witness :
  let analysis := VObj [("risk", VObj [("score", num 820)])] in
  let data := VObj [("benchmarking", VObj [("industry_percentile", num 64)])] in
  (∃ o, ResultsPage analysis = Shown o ∧
        Forall2 (λ field panel,
           panel.1 = panel_title field ∧
           (missing (lookup_path analysis (field_path field)) →
              panel.2 = panel_form field (num 0)) ∧
           (¬ missing (lookup_path analysis (field_path field)) →
              panel.2 = panel_form field (lookup_path analysis (field_path field))))
          numeric_fields (numeric_panels o)) ∧
  (∃ d, @Dashboard bare_host data = Normal (Shown d) ∧
        forecastData d = [] ∧
        ∃ cards percentile,
          metrics d = (cards ++ [percentile])%list ∧
          card_value percentile = Template (num 64) "%").
Proof.
  cbn zeta. split.
  - eexists. split; [reflexivity|].
    match goal with
    | |- Forall2 _ _ (numeric_panels ?o) =>
        pose proof (absent_fields_defaulted bare_host
          (VObj [("risk", VObj [("score", num 820)])]) VNull o
          {| metrics := []; forecastData := []; products := NoProducts "";
             ai_summary := VNull |}) as (Hpanels & _)
    end.
    apply Hpanels. reflexivity.
  - eexists. split; [reflexivity|].
    match goal with
    | |- forecastData ?d = [] ∧ _ =>
        pose proof (absent_fields_defaulted bare_host VNull
          (VObj [("benchmarking", VObj [("industry_percentile", num 64)])])
          {| scores := []; finances := []; product := VNull;
             product_reason := VNull; forecast_revenue := VNull;
             forecast_expenses := VNull; summary := VNull |} d)
          as (_ & _ & Hdash & _)
    end.
    destruct (Hdash eq_refl) as (Hcards & Hforecast).
    split; [apply Hforecast; left; reflexivity|].
    destruct Hcards as (cards & percentile & Hmetrics & _ & _ & Hshown & _).
    exists cards, percentile. split; [exact Hmetrics|].
    apply Hshown. reflexivity.
Defined.

(** * Further properties *)

(** ** Tiers of the other classifications *)

Lemma ge_lit_mono (rt : Runtime) (q1 q2 : Q) (z : Z) :
  (q1 <= q2)%Q → (VNum (Finite q1) >=? z) = true → (VNum (Finite q2) >=? z) = true.
Proof.
  intros Hle H1. unfold ge_lit in *; simpl in *.
  apply Qle_bool_iff. apply Qle_bool_iff in H1. by eapply Qle_trans.
Qed.

(** X1. The investor gauge has four tiers, inclusive at their lower bound:
    green from 80, blue from 60, orange from 40, red below, in the bar and
    in the figure. *)
Theorem investor_tiers (rt : Runtime) (q : Q) (category : value) :
  let g := InvestorGauge (VNum (Finite q)) category in
  ((80 <= q)%Q → bar_fill g = "#28a745" ∧ figure_color g = "#28a745") ∧
  ((60 <= q)%Q → (q < 80)%Q → bar_fill g = "#007bff" ∧ figure_color g = "#007bff") ∧
  ((40 <= q)%Q → (q < 60)%Q → bar_fill g = "#fd7e14" ∧ figure_color g = "#fd7e14") ∧
  ((q < 40)%Q → bar_fill g = "#dc3545" ∧ figure_color g = "#dc3545").
Proof.
  cbn zeta. split_and!.
  - intros H. simpl. by rewrite (ge_lit_above q 80).
  - intros Hlo Hhi. simpl. by rewrite (ge_lit_below q 80), (ge_lit_above q 60).
  - intros Hlo Hhi. simpl.
    by rewrite (ge_lit_below_mono q 60 80), (ge_lit_below q 60), (ge_lit_above q 40).
  - intros H. simpl.
    by rewrite (ge_lit_below_mono q 40 80), (ge_lit_below_mono q 40 60),
      (ge_lit_below q 40).
Qed.

Lemma investor_tiers_witness :
  bar_fill (@InvestorGauge bare_host (num 80) VUndefined) = "#28a745" ∧
  bar_fill (@InvestorGauge bare_host (num 60) VUndefined) = "#007bff" ∧
  bar_fill (@InvestorGauge bare_host (num 40) VUndefined) = "#fd7e14" ∧
  bar_fill (@InvestorGauge bare_host (num 39) VUndefined) = "#dc3545".
Proof.
  split_and!.
  - apply (investor_tiers bare_host 80%Q VUndefined). by vm_compute.
  - apply (investor_tiers bare_host 60%Q VUndefined); by vm_compute.
  - apply (investor_tiers bare_host 40%Q VUndefined); by vm_compute.
  - apply (investor_tiers bare_host 39%Q VUndefined). by vm_compute.
Defined.

(** X2. The survival gauge has three tiers, inclusive at their lower bound,
    and labels each with its own text: green and "Stable" from 70, orange
    and "Watch Closely" from 50, red and "High Risk" below. *)
Theorem survival_tiers (rt : Runtime) (q : Q) :
  let g := SurvivalGauge (VNum (Finite q)) in
  ((70 <= q)%Q →
     bar_fill g = "#28a745" ∧ figure_color g = "#28a745" ∧ caption g = VStr "Stable") ∧
  ((50 <= q)%Q → (q < 70)%Q →
     bar_fill g = "#fd7e14" ∧ figure_color g = "#fd7e14" ∧
     caption g = VStr "Watch Closely") ∧
  ((q < 50)%Q →
     bar_fill g = "#dc3545" ∧ figure_color g = "#dc3545" ∧ caption g = VStr "High Risk").
Proof.
  cbn zeta. split_and!.
  - intros H. simpl. by rewrite (ge_lit_above q 70).
  - intros Hlo Hhi. simpl. by rewrite (ge_lit_below q 70), (ge_lit_above q 50).
  - intros H. simpl. by rewrite (ge_lit_below_mono q 50 70), (ge_lit_below q 50).
Qed.

Lemma survival_tiers_witness :
  caption (@SurvivalGauge bare_host (num 70)) = VStr "Stable" ∧
  caption (@SurvivalGauge bare_host (num 50)) = VStr "Watch Closely" ∧
  caption (@SurvivalGauge bare_host (num 49)) = VStr "High Risk".
Proof.
  split_and!.
  - apply (survival_tiers bare_host 70%Q). by vm_compute.
  - apply (survival_tiers bare_host 50%Q); by vm_compute.
  - apply (survival_tiers bare_host 49%Q). by vm_compute.
Defined.

(** X3. For every score whose conversion to a number returns (any
    primitive value, a number or not, and any object or list in which no
    object has an own [toString] property) the bar, the figure and the
    label of the survival gauge agree: they are green, green and "Stable",
    or orange, orange and "Watch Closely", or red, red and "High Risk". *)
Theorem survival_label_matches_color (rt : Runtime) (score : value) :
  stringifiable score = true →
  let g := SurvivalGauge score in
  (bar_fill g, figure_color g, caption g) ∈
    [ ("#28a745", "#28a745", VStr "Stable");
      ("#fd7e14", "#fd7e14", VStr "Watch Closely");
      ("#dc3545", "#dc3545", VStr "High Risk") ].
Proof.
  intros _. cbn zeta. simpl.
  destruct (score >=? 70); [by left|].
  destruct (score >=? 50); [right; by left | right; right; by left].
Qed.

Lemma survival_label_matches_color_witness :
  (bar_fill (@SurvivalGauge bare_host (VBool true)),
   figure_color (@SurvivalGauge bare_host (VBool true)),
   caption (@SurvivalGauge bare_host (VBool true))) ∈
    [ ("#28a745", "#28a745", VStr "Stable");
      ("#fd7e14", "#fd7e14", VStr "Watch Closely");
      ("#dc3545", "#dc3545", VStr "High Risk") ].
Proof.
  apply (survival_label_matches_color bare_host (VBool true)). reflexivity.
Defined.

(** X4. The ESG card has four tiers, inclusive at their lower bound: green
    from 80, blue from 65, orange from 50, red below; the card of an [esg]
    object is coloured by its [score]. *)
Theorem esg_tiers (rt : Runtime) (q : Q) (rest : list (string * value)) :
  let esg := VObj (("score", VNum (Finite q)) :: rest) in
  ((80 <= q)%Q → esg_color <$> ESG.ESGCard esg = element "#22c55e") ∧
  ((65 <= q)%Q → (q < 80)%Q → esg_color <$> ESG.ESGCard esg = element "#3b82f6") ∧
  ((50 <= q)%Q → (q < 65)%Q → esg_color <$> ESG.ESGCard esg = element "#f59e0b") ∧
  ((q < 50)%Q → esg_color <$> ESG.ESGCard esg = element "#ef4444").
Proof.
  cbn zeta. unfold ESG.ESGCard, ESG.getColor. simpl. split_and!.
  - intros H. by rewrite (ge_lit_above q 80).
  - intros Hlo Hhi. by rewrite (ge_lit_below q 80), (ge_lit_above q 65).
  - intros Hlo Hhi.
    by rewrite (ge_lit_below_mono q 65 80), (ge_lit_below q 65), (ge_lit_above q 50).
  - intros H.
    by rewrite (ge_lit_below_mono q 50 80), (ge_lit_below_mono q 50 65),
      (ge_lit_below q 50).
Qed.

Lemma esg_tiers_witness :
  esg_color <$> @ESG.ESGCard bare_host (VObj [("score", num 80)]) = element "#22c55e" ∧
  esg_color <$> @ESG.ESGCard bare_host (VObj [("score", num 65)]) = element "#3b82f6" ∧
  esg_color <$> @ESG.ESGCard bare_host (VObj [("score", num 50)]) = element "#f59e0b" ∧
  esg_color <$> @ESG.ESGCard bare_host (VObj [("score", num 49)]) = element "#ef4444".
Proof.
  split_and!.
  - apply (esg_tiers bare_host 80%Q []). by vm_compute.
  - apply (esg_tiers bare_host 65%Q []); by vm_compute.
  - apply (esg_tiers bare_host 50%Q []); by vm_compute.
  - apply (esg_tiers bare_host 49%Q []). by vm_compute.
Defined.

(** X5. In each of the four classifications a higher finite score never
    lands in a lower tier. *)
Theorem higher_score_no_lower_tier (rt : Runtime) (q1 q2 : Q) (category : value) :
  (q1 <= q2)%Q →
  (gauge_rank (bar_fill (RiskGauge (VNum (Finite q1)) category)) ≤
     gauge_rank (bar_fill (RiskGauge (VNum (Finite q2)) category)))%nat ∧
  (gauge_rank (bar_fill (InvestorGauge (VNum (Finite q1)) category)) ≤
     gauge_rank (bar_fill (InvestorGauge (VNum (Finite q2)) category)))%nat ∧
  (gauge_rank (bar_fill (SurvivalGauge (VNum (Finite q1)))) ≤
     gauge_rank (bar_fill (SurvivalGauge (VNum (Finite q2)))))%nat ∧
  (esg_rank (ESG.getColor (VNum (Finite q1))) ≤
     esg_rank (ESG.getColor (VNum (Finite q2))))%nat.
Proof.
  intros Hle.
  assert (∀ z, (VNum (Finite q1) >=? z) = true → (VNum (Finite q2) >=? z) = true)
    as Hmono by (intros z; by apply ge_lit_mono).
  unfold ESG.getColor. simpl.
  split_and!;
    repeat match goal with
    | |- context [VNum (Finite q1) >=? ?z] =>
        let H := fresh "H" in
        pose proof (Hmono z) as H;
        destruct (VNum (Finite q1) >=? z);
        [rewrite (H eq_refl) | clear H]
    end;
    repeat match goal with
    | |- context [VNum (Finite q2) >=? ?z] => destruct (VNum (Finite q2) >=? z)
    end;
    by vm_compute; lia.
Qed.

Lemma higher_score_no_lower_tier_witness :
  (gauge_rank (bar_fill (@RiskGauge bare_host (num 600) VUndefined)) ≤
     gauge_rank (bar_fill (@RiskGauge bare_host (num 750) VUndefined)))%nat.
Proof.
  apply (higher_score_no_lower_tier bare_host 600%Q 750%Q VUndefined).
  by vm_compute.
Defined.

(** ** AI summary *)

Lemma split_lines_nonempty (s : string) : split_lines s ≠ [].
Proof.
  destruct s as [|c rest]; simpl; [done|].
  destruct (Ascii.eqb c "010"); [done|]. by destruct (split_lines rest).
Qed.

Lemma split_lines_concat (s : string) : String.concat newline (split_lines s) = s.
Proof.
  induction s as [|c rest IH]; simpl; [done|].
  pose proof (split_lines_nonempty rest) as Hne.
  destruct (Ascii.eqb_spec c "010") as [-> | Hc].
  - simpl. destruct (split_lines rest) as [|line lines]; [done|].
    by rewrite IH.
  - destruct (split_lines rest) as [|line lines]; [done|].
    destruct lines as [|line' lines]; simpl in *; by rewrite <- IH.
Qed.

Lemma split_lines_length (s : string) :
  length (split_lines s) = S (count_newlines s).
Proof.
  induction s as [|c rest IH]; simpl; [done|].
  pose proof (split_lines_nonempty rest) as Hne.
  destruct (Ascii.eqb c "010"); simpl; [by rewrite IH|].
  by destruct (split_lines rest).
Qed.

Lemma split_lines_clean (s : string) :
  Forall (λ line, has_newline line = false) (split_lines s).
Proof.
  induction s as [|c rest IH]; simpl; [by repeat constructor|].
  destruct (Ascii.eqb c "010") eqn:Hc; [by constructor|].
  pose proof (split_lines_nonempty rest) as Hne.
  destruct (split_lines rest) as [|line lines]; [done|].
  inversion_clear IH as [|? ? Hline Hlines]. constructor; [|done].
  unfold has_newline in *. simpl. by rewrite Hc.
Qed.

(** X6. For a summary that is a non-empty string the AI summary returns
    one paragraph per line of the text: one more than the text has line
    feeds, none holding a line feed, and joined by line feeds they give the
    text back. *)
Theorem summary_paragraphs (s : string) :
  s ≠ "" →
  ∃ paragraphs,
    AISummary (VStr s) = Normal (element paragraphs) ∧
    length paragraphs = S (count_newlines s) ∧
    Forall (λ line, has_newline line = false) paragraphs ∧
    String.concat newline paragraphs = s.
Proof.
  intros Hs. exists (split_lines s). unfold AISummary.
  rewrite (truthy_nonempty s Hs). simpl.
  split_and!; [done | apply split_lines_length | apply split_lines_clean
              | apply split_lines_concat].
Qed.

Lemma summary_paragraphs_witness :
  ∃ paragraphs,
    AISummary (VStr ("Cash is tight." ++ newline ++ "Cut costs.")) =
      Normal (element paragraphs) ∧
    length paragraphs = 2.
Proof.
  destruct (summary_paragraphs ("Cash is tight." ++ newline ++ "Cut costs."))
    as (paragraphs & Hview & Hlen & _).
  - discriminate.
  - exists paragraphs. split; [exact Hview | exact Hlen].
Defined.

(** X7. For a summary that is truthy and not a string (a number, [true],
    a list, an object) the AI summary throws a TypeError, having no [split]
    to call. *)
Theorem summary_not_text_throws (summary : value) :
  truthy summary = true → (∀ s, summary ≠ VStr s) →
  AISummary summary = Throw TypeError.
Proof.
  intros Ht Hs. unfold AISummary. rewrite Ht. simpl.
  destruct summary; try done. by destruct (Hs s).
Qed.

Lemma summary_not_text_throws_witness :
  AISummary (VArr [VStr "Cash is tight."]) = Throw TypeError.
Proof.
  apply (summary_not_text_throws (VArr [VStr "Cash is tight."])).
  - reflexivity.
  - discriminate.
Defined.

(** ** Alert panels, further *)

Lemma nullish_or_not (items : list value) :
  Forall not_nullish items ∨ Exists missing items.
Proof.
  induction items as [|item items [IH | IH]].
  - left. constructor.
  - destruct item; try (left; constructor; [by split | done]);
      right; constructor; by (left + right).
  - right. by constructor 2.
Qed.

Lemma entries_of_nullish (colour : value → string) (items : list value) :
  Exists missing items →
  mapM (M := completion) (λ flag,
    severity ← member flag "severity" ;
    type ← member flag "type" ;
    message ← member flag "message" ;
    Normal {|
      border_left := "6px solid " ++ colour severity;
      alert_type := type;
      badge_background := colour severity;
      badge_text := severity;
      alert_body := or_else message (getProp flag "description")
    |}) items = Throw TypeError.
Proof.
  induction 1 as [item items [-> | ->] | item items _ IH]; cbn [mapM].
  - done.
  - done.
  - rewrite IH. destruct item; try done.
Qed.

(** X8. The fraud panel and the warning panel treat every input alike:
    both return their all-clear view in the same green, or both return the
    same alert entries, or both throw the same exception. *)
Theorem panels_agree (input : value) :
  same_outcome (Fraud.FraudPanel input) (Warning.WarningPanel input).
Proof.
  unfold Fraud.FraudPanel, Warning.WarningPanel.
  destruct (negb (truthy input) || is_num (getProp input "length") 0); [done|].
  change Warning.getSeverityColor with Fraud.getSeverityColor.
  destruct (call_map input _) as [entries|e]; done.
Qed.

(** X9. A non-empty list makes a panel throw exactly when one of its
    elements is null or undefined; otherwise the panel returns alerts. *)
Theorem panel_throws_iff_nullish_element (items : list value) :
  items ≠ [] →
  (Warning.WarningPanel (VArr items) = Throw TypeError ↔ Exists missing items) ∧
  (Fraud.FraudPanel (VArr items) = Throw TypeError ↔ Exists missing items).
Proof.
  intros Hne. unfold Warning.WarningPanel, Fraud.FraudPanel, call_map.
  rewrite (nonempty_length_nonzero items Hne). simpl.
  split; (split; [|by intros H; rewrite entries_of_nullish]).
  - intros Hthrow. destruct (nullish_or_not items) as [Hobj | Hnull]; [|done].
    destruct (entries_of_objects Warning.getSeverityColor items Hobj)
      as (entries & Hmap & _).
    by rewrite Hmap in Hthrow.
  - intros Hthrow. destruct (nullish_or_not items) as [Hobj | Hnull]; [|done].
    destruct (entries_of_objects Fraud.getSeverityColor items Hobj)
      as (entries & Hmap & _).
    by rewrite Hmap in Hthrow.
Qed.

Lemma panel_throws_iff_nullish_element_witness :
  Warning.WarningPanel
    (VArr [VObj [("severity", VStr "High")]; VNull]) = Throw TypeError.
Proof.
  apply (panel_throws_iff_nullish_element
           [VObj [("severity", VStr "High")]; VNull]).
  - discriminate.
  - constructor 2. constructor. right. reflexivity.
Defined.

(** X10. An input that is truthy, is not a list and has no [length] equal
    to 0 (a text, a number, [true], an object) makes both panels throw a
    TypeError; an object whose [length] is 0 gets the all-clear view. *)
Theorem panel_not_a_list (input : value) (fields : list (string * value)) :
  (truthy input = true → (∀ items, input ≠ VArr items) →
   is_num (getProp input "length") 0 = false →
     Warning.WarningPanel input = Throw TypeError ∧
     Fraud.FraudPanel input = Throw TypeError) ∧
  (assoc "length" fields = num 0 →
     Warning.WarningPanel (VObj fields) =
       Normal (AllClear "Early Warning System" "#22c55e"
                 "✅ No active financial warnings")).
Proof.
  split.
  - intros Ht Hlist Hlen. unfold Warning.WarningPanel, Fraud.FraudPanel.
    rewrite Ht, Hlen. simpl.
    destruct input; try done. by destruct (Hlist items).
  - intros Hlen. unfold Warning.WarningPanel. simpl. by rewrite Hlen.
Qed.

Lemma panel_not_a_list_witness :
  Fraud.FraudPanel (VStr "none") = Throw TypeError ∧
  Warning.WarningPanel (VObj [("length", num 0)]) =
    Normal (AllClear "Early Warning System" "#22c55e"
              "✅ No active financial warnings").
Proof.
  split.
  - apply (panel_not_a_list (VStr "none") []); [reflexivity | discriminate | reflexivity].
  - apply (panel_not_a_list VNull [("length", num 0)]). reflexivity.
Defined.

(** ** Upload workflow, further *)

Lemma run_invariant (rt : Runtime) (I : upload_page → Prop) :
  (∀ pg ev, I pg → I (step pg ev)) →
  ∀ evs pg, I pg → I (run pg evs).
Proof.
  intros Hstep evs. induction evs as [|ev evs IH]; intros pg Hpg; [done|].
  apply IH. by apply Hstep.
Qed.

Lemma run_snoc (rt : Runtime) (pg : upload_page) (evs : list event) (ev : event) :
  run pg (evs ++ [ev]) = step (run pg evs) ev.
Proof. unfold run. by rewrite foldl_app. Qed.


Lemma call_log_ends_with_upload (l : list request) :
  call_log l true → ∃ earlier f, l = (earlier ++ [POST_upload 1 f])%list.
Proof. inversion 1; eauto. Qed.

Lemma snoc_eq_middle {A} (l before after : list A) (x y : A) :
  (l ++ [x] = before ++ y :: after)%list →
  (after = [] ∧ l = before ∧ x = y) ∨
  (∃ after', after = (after' ++ [x])%list ∧ l = (before ++ y :: after')%list).
Proof.
  destruct after as [|z after' _] using rev_ind; intros Heq.
  - left. apply app_inj_tail in Heq as [-> ->]. done.
  - right. exists after'.
    rewrite app_comm_cons, app_assoc in Heq.
    apply app_inj_tail in Heq as [-> ->]. done.
Qed.

Lemma call_log_analysis_preceded (l : list request) (b : bool) :
  call_log l b →
  ∀ before after id, l = (before ++ POST_analyze id :: after)%list →
    id = 1%Z ∧ ∃ earlier f, before = (earlier ++ [POST_upload 1 f])%list.
Proof.
  induction 1 as [|l b f Hlog IH|l Hlog IH]; intros before after id Heq.
  - by destruct before.
  - apply snoc_eq_middle in Heq as [(_ & _ & [=]) | (after' & _ & ->)].
    by eapply IH.
  - apply snoc_eq_middle in Heq as [(_ & -> & [= <-]) | (after' & _ & ->)].
    + split; [done|]. by apply call_log_ends_with_upload.
    + by eapply IH.
Qed.

Lemma step_call_log (rt : Runtime) (pg : upload_page) (ev : event) :
  (∃ b, call_log (requests pg) b ∧ (pending pg = Uploading → b = true)) →
  ∃ b, call_log (requests (step pg ev)) b ∧
       (pending (step pg ev) = Uploading → b = true).
Proof.
  intros (b & Hlog & Hup). destruct ev as [f | | r | r]; simpl.
  - by exists b.
  - destruct (loading pg); [by exists b|]. unfold handleUpload.
    destruct (file pg) as [f|]; simpl; [|by exists b].
    exists true. split; [|done]. by eapply (log_upload _ b f).
  - destruct (pending pg) eqn:Hp;
      try (exists b; split; [done | by rewrite Hp]).
    destruct r as [res | err]; simpl.
    + exists false. split; [|by intros [=]].
      apply log_analyze. by rewrite <- Hup.
    + exists b. split; [done | by intros [=]].
  - destruct (pending pg) eqn:Hp;
      try (exists b; split; [done | by rewrite Hp]).
    destruct r as [res | err]; simpl; exists b; (split; [done | by intros [=]]).
Qed.

(** X12. In every session the analysis is only ever requested directly
    after an upload, for the same business 1: each [POST /analyze] in the
    record of calls has a [POST /upload] just before it. *)
Theorem analysis_follows_upload (rt : Runtime) (evs : list event)
    (before after : list request) (id : Z) :
  requests (run upload_initial evs) = (before ++ POST_analyze id :: after)%list →
  id = 1%Z ∧ ∃ earlier f, before = (earlier ++ [POST_upload 1 f])%list.
Proof.
  intros Heq.
  destruct (run_invariant rt _ (step_call_log rt) evs upload_initial) as (b & Hlog & _).
  { exists false. split; [constructor | done]. }
  by eapply call_log_analysis_preceded.
Qed.

Lemma analysis_follows_upload_witness :
  ∃ earlier f, [POST_upload 1 {| file_name := "ledger.csv" |}] =
               (earlier ++ [POST_upload 1 f])%list.
Proof.
  eapply (analysis_follows_upload bare_host
            [ChooseFile (Some {| file_name := "ledger.csv" |});
             ClickAnalyze;
             UploadSettled (Fulfilled {| data := VNull |})]
            [POST_upload 1 {| file_name := "ledger.csv" |}] [] 1).
  reflexivity.
Defined.

(** X13. In every session each file uploaded is a file the user chose
    earlier in that session, and it is uploaded for business 1. *)
Theorem uploads_were_chosen (rt : Runtime) (evs : list event) (id : Z) (f : File) :
  POST_upload id f ∈ requests (run upload_initial evs) →
  id = 1%Z ∧ ChooseFile (Some f) ∈ evs.
Proof.
  revert id f.
  assert ((∀ f, file (run upload_initial evs) = Some f → ChooseFile (Some f) ∈ evs) ∧
          (∀ id f, POST_upload id f ∈ requests (run upload_initial evs) →
                   id = 1%Z ∧ ChooseFile (Some f) ∈ evs)) as [_ H]; [|done].
  induction evs as [|ev evs [IHfile IHreq]] using rev_ind.
  - split; [done|]. intros id f Hin. by apply elem_of_nil in Hin.
  - rewrite run_snoc.
    assert (∀ id f, POST_upload id f ∈ requests (run upload_initial evs) →
                    id = 1%Z ∧ ChooseFile (Some f) ∈ (evs ++ [ev])%list) as IHreq'.
    { intros id f Hin. destruct (IHreq id f Hin) as [-> Hc].
      split; [done|]. apply elem_of_app. by left. }
    assert (∀ f, file (run upload_initial evs) = Some f →
                 ChooseFile (Some f) ∈ (evs ++ [ev])%list) as IHfile'.
    { intros f Hf. apply elem_of_app. left. by apply IHfile. }
    clear IHfile IHreq.
    set (pg := run upload_initial evs) in *. clearbody pg.
    destruct ev as [chosen | | r | r]; simpl.
    + split; [|done]. intros f [= ->]. apply elem_of_app. right. by left.
    + destruct (loading pg); [done|]. unfold handleUpload.
      destruct (file pg) as [f0|] eqn:Hfile; simpl; [|by rewrite Hfile].
      rewrite Hfile. split; [done|].
      intros id f [Hin | Hin]%elem_of_app; [by apply IHreq'|].
      apply list_elem_of_singleton in Hin as [= -> ->]. split; [done|].
      by apply IHfile'.
    + destruct (pending pg); try done. destruct r; simpl; [|done].
      split; [done|]. intros id f [Hin | Hin]%elem_of_app; [by apply IHreq'|].
      by apply list_elem_of_singleton in Hin.
    + destruct (pending pg); try done. by destruct r.
Qed.

Lemma uploads_were_chosen_witness :
  ChooseFile (Some {| file_name := "ledger.csv" |}) ∈
    [ChooseFile (Some {| file_name := "ledger.csv" |}); ClickAnalyze].
Proof.
  apply (uploads_were_chosen bare_host
           [ChooseFile (Some {| file_name := "ledger.csv" |}); ClickAnalyze]
           1 {| file_name := "ledger.csv" |}).
  simpl. by left.
Defined.
Lemma step_route_after_commit (rt : Runtime) (pg : upload_page) (ev : event) :
  ((location pg = "/" ∨
    (location pg = "/results" ∧ is_Some (localStorage pg !! "analysis"))) ∧
   (∀ key, is_Some (localStorage pg !! key) → key = "analysis")) →
  (location (step pg ev) = "/" ∨
   (location (step pg ev) = "/results" ∧
    is_Some (localStorage (step pg ev) !! "analysis"))) ∧
  (∀ key, is_Some (localStorage (step pg ev) !! key) → key = "analysis").
Proof.
  intros Hinv. destruct ev as [f | | r | r]; simpl.
  - done.
  - destruct (loading pg); [done|]. unfold handleUpload. by destruct (file pg).
  - destruct (pending pg); try done. by destruct r.
  - destruct (pending pg); try done. destruct r as [res | err]; simpl; [|done].
    destruct Hinv as [_ Hkeys]. split.
    + right. split; [done|]. by rewrite lookup_insert_eq.
    + intros key. destruct (decide (key = "analysis")) as [-> | Hne]; [done|].
      rewrite lookup_insert_ne by done. apply Hkeys.
Qed.

(** X14. In every session the page is on the route of the upload page or
    on "/results", and it is on "/results" only once an analysis is stored;
    nothing is ever stored under another key than "analysis". *)
Theorem results_route_after_commit (rt : Runtime) (evs : list event) :
  let pg := run upload_initial evs in
  (App (location pg) = Some UploadPage ∨ App (location pg) = Some ResultsPageRoute) ∧
  (App (location pg) = Some ResultsPageRoute →
     ∃ text, getItem (localStorage pg) "analysis" = Some text) ∧
  (∀ key text, getItem (localStorage pg) key = Some text → key = "analysis").
Proof.
  cbn zeta.
  destruct (run_invariant rt _ (step_route_after_commit rt) evs upload_initial)
    as [Hroute Hkeys].
  { split; [by left|]. intros key [text Hget]. simpl in Hget.
    by rewrite lookup_empty in Hget. }
  split_and!.
  - destruct Hroute as [-> | [-> _]]; [by left | by right].
  - destruct Hroute as [-> | [_ Hsome]]; [done|]. intros _. by destruct Hsome as [text ?]; exists text.
  - intros key text Hget. apply Hkeys. by exists text.
Qed.

Lemma results_route_after_commit_witness :
  ∃ text,
    getItem (localStorage (@step bare_host analyzing_page
                             (AnalysisSettled (Fulfilled {| data := VUndefined |}))))
      "analysis" = Some text.
Proof.
  pose proof (results_route_after_commit bare_host
    [ChooseFile (Some {| file_name := "ledger.csv" |});
     ClickAnalyze;
     UploadSettled (Fulfilled {| data := VNull |});
     AnalysisSettled (Fulfilled {| data := VUndefined |})]) as (_ & Hstored & _).
  apply Hstored. reflexivity.
Defined.



(** X16. The message alerted on a failure is never blank: whatever the
    error is, the value given to [alert] is truthy, so it is neither
    undefined, nor null, nor the empty text. *)
Theorem detail_never_blank (err : value) :
  truthy (detail err) = true ∧
  detail err ≠ VUndefined ∧ detail err ≠ VNull ∧ detail err ≠ VStr "".
Proof.
  assert (truthy (detail err) = true) as Ht.
  { unfold detail, or_else.
    repeat match goal with
    | |- context [truthy ?v] =>
        lazymatch v with
        | context [truthy] => fail
        | _ => let H := fresh "H" in destruct (truthy v) eqn:H; rewrite ?H
        end
    end; done. }
  split; [done|]. by split_and!; intros Heq; rewrite Heq in Ht.
Qed.

(** ** From the upload page to the results page *)

(** X17. An analysis that succeeds is shown: if the host writes the
    payload as a non-empty text and reads that text back as the payload,
    the payload is truthy, and its percentile, which the results page puts
    into a text, can be converted to one, then after the analysis has
    settled the page is on "/results", the results page mounted there holds
    the payload without redirecting, and it returns the overview of that
    payload. *)
Theorem analysis_reaches_results (rt : Runtime) (pg : upload_page)
    (res : response) (text : string) :
  pending pg = Analyzing →
  JSON_stringify (data res) = Some text → text ≠ "" →
  JSON_parse text = Some (data res) →
  truthy (data res) = true →
  stringifiable (lookup_path (data res) ["benchmarking"; "percentile_rank"]) = true →
  let pg' := step pg (AnalysisSettled (Fulfilled res)) in
  App (location pg') = Some ResultsPageRoute ∧
  ResultsPage_effect (localStorage pg') results_initial =
    Normal {| analysis := data res; route := "/results" |} ∧
  ∃ o, ResultsPage (data res) = Shown o ∧
       card_value <$> scores o !! 0%nat =
         Some (Value (nullish (lookup_path (data res) ["risk"; "score"]) (num 0))).
Proof.
  intros Hp Hwrite Htext Hread Htruthy _. cbn zeta. simpl. rewrite Hp. simpl.
  split_and!.
  - done.
  - unfold ResultsPage_effect, getItem. rewrite lookup_insert_eq, Hwrite. simpl.
    apply String.eqb_neq in Htext as ->. simpl. by rewrite Hread.
  - unfold ResultsPage. rewrite Htruthy. simpl. by eexists.
Qed.

Lemma analysis_reaches_results_witness :
  @ResultsPage_effect (host_exchanging "{}" (VObj []))
    (localStorage (@step (host_exchanging "{}" (VObj []))
                     analyzing_page (AnalysisSettled (Fulfilled {| data := VObj [] |}))))
    results_initial = Normal {| analysis := VObj []; route := "/results" |}.
Proof.
  apply (analysis_reaches_results (host_exchanging "{}" (VObj []))
           analyzing_page {| data := VObj [] |} "{}");
    [reflexivity | reflexivity | discriminate | reflexivity | reflexivity
    | reflexivity].
Defined.

(** X18. An analysis answered without a payload breaks the results page:
    on a host where [JSON.stringify] of the payload is undefined and
    [JSON.parse] rejects the text "undefined", the text "undefined" is
    stored, the page goes to "/results", and the results page mounted there
    throws a SyntaxError. *)
Theorem analysis_without_payload_breaks_results (rt : Runtime) (pg : upload_page)
    (res : response) :
  pending pg = Analyzing →
  JSON_stringify (data res) = None →
  JSON_parse "undefined" = None →
  let pg' := step pg (AnalysisSettled (Fulfilled res)) in
  getItem (localStorage pg') "analysis" = Some "undefined" ∧
  location pg' = "/results" ∧
  ResultsPage_effect (localStorage pg') results_initial = Throw SyntaxError.
Proof.
  intros Hp Hwrite Hread. cbn zeta. simpl. rewrite Hp. simpl.
  unfold ResultsPage_effect, getItem. rewrite lookup_insert_eq, Hwrite. simpl.
  by rewrite Hread.
Qed.

Lemma analysis_without_payload_breaks_results_witness :
  @ResultsPage_effect bare_host
    (localStorage (@step bare_host analyzing_page
                     (AnalysisSettled (Fulfilled {| data := VUndefined |}))))
    results_initial = Throw SyntaxError.
Proof.
  apply (analysis_without_payload_breaks_results bare_host analyzing_page
           {| data := VUndefined |}); reflexivity.
Defined.

(** X19. A stored analysis that reads as a falsy value (null, 0, false,
    the empty text) strands the results page: the effect keeps the route
    "/results" and the page returns its loading placeholder. A stored empty
    text sends it back to "/" like a missing entry, and a stored text that
    does not parse makes the effect throw a SyntaxError. *)
Theorem stored_analysis_edge_cases (rt : Runtime) (storage : gmap string string)
    (text : string) (v : value) :
  (getItem storage "analysis" = Some text → text ≠ "" →
   JSON_parse text = Some v → truthy v = false →
     ResultsPage_effect storage results_initial =
       Normal {| analysis := v; route := "/results" |} ∧
     ResultsPage v = Loading "Loading...") ∧
  (getItem storage "analysis" = Some "" →
     ResultsPage_effect storage results_initial =
       Normal {| analysis := VNull; route := "/" |}) ∧
  (getItem storage "analysis" = Some text → text ≠ "" → JSON_parse text = None →
     ResultsPage_effect storage results_initial = Throw SyntaxError).
Proof.
  unfold ResultsPage_effect, ResultsPage. split_and!.
  - intros Hget Htext Hread Hfalsy. rewrite Hget, Hfalsy. simpl.
    apply String.eqb_neq in Htext as ->. simpl. by rewrite Hread.
  - by intros ->.
  - intros Hget Htext Hread. rewrite Hget. simpl.
    apply String.eqb_neq in Htext as ->. simpl. by rewrite Hread.
Qed.

Lemma stored_analysis_edge_cases_witness :
  @ResultsPage_effect (host_reading "null" VNull) {["analysis" := "null"]}
    results_initial = Normal {| analysis := VNull; route := "/results" |} ∧
  @ResultsPage_effect bare_host {["analysis" := ""]} results_initial =
    Normal {| analysis := VNull; route := "/" |} ∧
  @ResultsPage_effect bare_host {["analysis" := "{"]} results_initial =
    Throw SyntaxError.
Proof.
  split_and!.
  - apply (stored_analysis_edge_cases (host_reading "null" VNull)
             {["analysis" := "null"]} "null" VNull);
      [reflexivity | discriminate | reflexivity | reflexivity].
  - apply (stored_analysis_edge_cases bare_host {["analysis" := ""]} "" VNull).
    reflexivity.
  - apply (stored_analysis_edge_cases bare_host {["analysis" := "{"]} "{" VNull);
      [reflexivity | discriminate | reflexivity].
Defined.

(** ** Dashboard *)

Lemma mapM_Normal {A B} (f : A → completion B) (l : list A) (k : list B) :
  mapM f l = Normal k → Forall2 (λ x y, f x = Normal y) l k.
Proof.
  revert k. induction l as [|x l IH]; intros k; cbn [mapM].
  - intros [= <-]. constructor.
  - destruct (f x) as [y|e] eqn:Hfx; [|done]. simpl.
    destruct (mapM f l) as [k'|e]; [|done]. simpl.
    intros [= <-]. constructor; [done | by apply IH].
Qed.

Lemma opt_truthy (v : value) (k : string) : truthy v = true → opt v k = getProp v k.
Proof. by destruct v. Qed.

Lemma length_positive (n : nat) :
  n ≠ 0%nat → number_gt (Finite (inject_Z (Z.of_nat n))) (Finite (inject_Z 0)) = true.
Proof. by destruct n. Qed.

(** X20. The dashboard gives its chart the forecast in the order of the
    payload, one point per period, each with the [period] and the [value]
    of its element. *)
Theorem dashboard_forecast_in_order (rt : Runtime) (data : value)
    (items : list value) (d : dashboard) :
  Dashboard data = Normal (Shown d) →
  lookup_path data ["forecast"; "revenue_forecast"; "future"] = VArr items →
  Forall2 (λ item pt, period pt = getProp item "period" ∧
                      revenue pt = getProp item "value")
    items (forecastData d).
Proof.
  unfold Dashboard, lookup_path. simpl.
  destruct (truthy data) eqn:Htruthy; simpl; [|done].
  rewrite (opt_truthy data "forecast" Htruthy).
  intros Hd Hfuture. rewrite Hfuture in Hd.
  unfold opt_map_or_empty, call_map in Hd.
  destruct (mapM _ items) as [forecast|] eqn:Hforecast; [|done]. simpl in Hd.
  destruct (if gt_lit _ _ then _ else _) as [recommended|]; [|done]. simpl in Hd.
  injection Hd as <-. simpl.
  apply mapM_Normal in Hforecast.
  eapply Forall2_impl; [exact Hforecast|].
  intros item pt Hpt. simpl in Hpt. destruct item; try done; by injection Hpt as <-.
Qed.

Lemma dashboard_forecast_in_order_witness :
  let future := [VObj [("period", VStr "2025-Q1"); ("value", num 120)];
                 VObj [("period", VStr "2025-Q2"); ("value", num 135)]] in
  let data := VObj [("forecast", VObj [("revenue_forecast", VObj [("future", VArr future)])])] in
  ∃ d, @Dashboard bare_host data = Normal (Shown d) ∧
       Forall2 (λ item pt, period pt = getProp item "period" ∧
                           revenue pt = getProp item "value")
         future (forecastData d).
Proof.
  cbn zeta. eexists. split; [reflexivity|].
  apply (dashboard_forecast_in_order bare_host
           (VObj [("forecast", VObj [("revenue_forecast", VObj [("future", VArr
              [VObj [("period", VStr "2025-Q1"); ("value", num 120)];
               VObj [("period", VStr "2025-Q2"); ("value", num 135)]])])])]));
    reflexivity.
Defined.

(** X21. The dashboard throws a TypeError instead of rendering when the
    forecast series is present and not a list, and when the product
    recommendations are a non-empty text. *)
Theorem dashboard_throws (rt : Runtime) (data : value) (s : string) :
  truthy data = true →
  (¬ missing (lookup_path data ["forecast"; "revenue_forecast"; "future"]) →
   (∀ items, lookup_path data ["forecast"; "revenue_forecast"; "future"] ≠ VArr items) →
     Dashboard data = Throw TypeError) ∧
  (missing (lookup_path data ["forecast"; "revenue_forecast"; "future"]) →
   lookup_path data ["product_recommendations"] = VStr s → s ≠ "" →
     Dashboard data = Throw TypeError).
Proof.
  intros Htruthy. unfold Dashboard, lookup_path. simpl. rewrite Htruthy. simpl.
  rewrite !(opt_truthy data _ Htruthy). split.
  - intros Hpresent Hlist. unfold opt_map_or_empty, call_map.
    destruct (opt (opt (getProp data "forecast") "revenue_forecast") "future");
      try done.
    + destruct Hpresent. by left.
    + destruct Hpresent. by right.
    + by destruct (Hlist items).
  - intros Hmissing -> Hs. unfold opt_map_or_empty.
    assert (gt_lit (opt (VStr s) "length") 0 = true) as ->.
    { apply length_positive. by destruct s. }
    by destruct Hmissing as [-> | ->].
Qed.

Lemma dashboard_throws_witness :
  @Dashboard bare_host
    (VObj [("forecast", VObj [("revenue_forecast", VObj [("future", VObj [])])])]) =
    Throw TypeError ∧
  @Dashboard bare_host (VObj [("product_recommendations", VStr "none")]) =
    Throw TypeError.
Proof.
  split.
  - pose proof (dashboard_throws bare_host
      (VObj [("forecast", VObj [("revenue_forecast", VObj [("future", VObj [])])])])
      "" eq_refl) as (Hforecast & _).
    apply Hforecast.
    + intros [H | H]; discriminate H.
    + intros items H. discriminate H.
  - pose proof (dashboard_throws bare_host
      (VObj [("product_recommendations", VStr "none")]) "none" eq_refl)
      as (_ & Hproducts).
    apply Hproducts; [by left | reflexivity | discriminate].
Defined.

Lemma Forall2_fmap_eq {A B} (g : A → B) (l : list A) (k : list B) :
  Forall2 (λ x y, y = g x) l k → k = g <$> l.
Proof. induction 1 as [|x y l k -> _ IH]; [done|]. by rewrite IH. Qed.

(** X22. The dashboard lists a non-empty list of recommendations in order,
    each by its [name] and, when it has none, by its JSON text; for a
    missing or empty list it shows that no product is recommended. *)
Theorem dashboard_products (rt : Runtime) (data : value)
    (items : list value) (d : dashboard) :
  Dashboard data = Normal (Shown d) →
  (lookup_path data ["product_recommendations"] = VArr items → items ≠ [] →
     products d =
       Products ((λ p, or_else (getProp p "name") (stringify p)) <$> items)) ∧
  (missing (lookup_path data ["product_recommendations"]) ∨
   lookup_path data ["product_recommendations"] = VArr [] →
     products d = NoProducts "No suitable financial products recommended.").
Proof.
  unfold Dashboard, lookup_path. simpl.
  destruct (truthy data) eqn:Htruthy; simpl; [|done].
  rewrite (opt_truthy data "product_recommendations" Htruthy).
  destruct (opt_map_or_empty _ _) as [forecast|]; [|done]. simpl.
  intros Hd. split.
  - intros Hrecs Hne. rewrite Hrecs in Hd.
    assert (gt_lit (opt (VArr items) "length") 0 = true) as Hgt.
    { apply length_positive. by destruct items. }
    rewrite Hgt in Hd. unfold call_map in Hd.
    destruct (mapM _ items) as [names|] eqn:Hnames; [|done]. simpl in Hd.
    injection Hd as <-. simpl. f_equal.
    apply Forall2_fmap_eq. apply mapM_Normal in Hnames.
    eapply Forall2_impl; [exact Hnames|].
    intros p y Hy. simpl in Hy. destruct p; try done; by injection Hy as <-.
  - intros [[Hm | Hm] | Hm]; rewrite Hm in Hd; simpl in Hd; by injection Hd as <-.
Qed.

Lemma dashboard_products_witness :
  let data := VObj [("product_recommendations",
                     VArr [VObj [("name", VStr "Invoice financing")]])] in
  ∃ d, @Dashboard bare_host data = Normal (Shown d) ∧
       products d = Products [VStr "Invoice financing"].
Proof.
  cbn zeta. eexists. split; [reflexivity|].
  apply (dashboard_products bare_host
           (VObj [("product_recommendations",
                   VArr [VObj [("name", VStr "Invoice financing")]])])
           [VObj [("name", VStr "Invoice financing")]]);
    [reflexivity | reflexivity | discriminate].
Defined.

(** X23. The two pages expect the recommendations in different shapes.
    The results page shows "N/A" without a reason for a payload whose
    recommendations are a list, and the dashboard shows that no product is
    recommended for a payload whose recommendations are an object without
    [length]. *)
Theorem recommendation_shapes (rt : Runtime) (payload : value)
    (items : list value) (fields : list (string * value))
    (o : overview) (d : dashboard) :
  (lookup_path payload ["product_recommendations"] = VArr items →
   ResultsPage payload = Shown o →
     product o = VStr "N/A" ∧ product_reason o = VStr "") ∧
  (lookup_path payload ["product_recommendations"] = VObj fields →
   assoc "length" fields = VUndefined →
   Dashboard payload = Normal (Shown d) →
     products d = NoProducts "No suitable financial products recommended.").
Proof.
  unfold lookup_path. simpl. split.
  - intros Hrecs. unfold ResultsPage.
    destruct (truthy payload); simpl; [|done]. intros [= <-]. simpl.
    by rewrite Hrecs.
  - intros Hrecs Hlen. unfold Dashboard.
    destruct (truthy payload) eqn:Htruthy; simpl; [|done].
    rewrite <- (opt_truthy payload "product_recommendations" Htruthy), Hrecs.
    destruct (opt_map_or_empty _ _) as [forecast|]; [|done]. simpl.
    unfold gt_lit. simpl. rewrite Hlen. simpl. by intros [= <-].
Qed.

Lemma recommendation_shapes_witness :
  let listed := VObj [("product_recommendations",
                       VArr [VObj [("name", VStr "Invoice financing")]])] in
  let single := VObj [("product_recommendations",
                       VObj [("recommended_product", VStr "Invoice financing");
                             ("reason", VStr "Slow receivables")])] in
  (∃ o, ResultsPage listed = Shown o ∧ product o = VStr "N/A") ∧
  (∃ d, @Dashboard bare_host single = Normal (Shown d) ∧
        products d = NoProducts "No suitable financial products recommended.").
Proof.
  cbn zeta. split.
  - eexists. split; [reflexivity|].
    match goal with
    | |- product ?o = _ =>
        pose proof (recommendation_shapes bare_host
          (VObj [("product_recommendations",
                  VArr [VObj [("name", VStr "Invoice financing")]])])
          [VObj [("name", VStr "Invoice financing")]] [] o
          {| metrics := []; forecastData := []; products := NoProducts "";
             ai_summary := VNull |}) as (Hlisted & _)
    end.
    by apply Hlisted.
  - eexists. split; [reflexivity|].
    match goal with
    | |- products ?d = _ =>
        pose proof (recommendation_shapes bare_host
          (VObj [("product_recommendations",
                  VObj [("recommended_product", VStr "Invoice financing");
                        ("reason", VStr "Slow receivables")])])
          []
          [("recommended_product", VStr "Invoice financing");
           ("reason", VStr "Slow receivables")]
          {| scores := []; finances := []; product := VNull;
             product_reason := VNull; forecast_revenue := VNull;
             forecast_expenses := VNull; summary := VNull |} d) as (_ & Hsingle)
    end.
    by apply Hsingle.
Defined.

(** ** Financial trend chart *)

(** X24. The trend chart throws a TypeError exactly when it is given no
    [metrics] (undefined or null) or a gross margin whose conversion throws
    (an object with an own [toString] property, or a list holding one);
    otherwise it gives its chart the four quarters Q1 to Q4 in order, Q3
    carrying the gross margin as it is. *)
Theorem trend_chart_needs_metrics (rt : Runtime) (ar : Arithmetic) (metrics : value) :
  (Trend.FinancialTrendChart metrics = Throw TypeError ↔
     missing metrics ∨ stringifiable (getProp metrics "gross_margin") = false) ∧
  (¬ missing metrics → stringifiable (getProp metrics "gross_margin") = true →
     ∃ points,
       Trend.FinancialTrendChart metrics = Normal points ∧
       Trend.name <$> points = ["Q1"; "Q2"; "Q3"; "Q4"] ∧
       Trend.revenue <$> points !! 2%nat = Some (getProp metrics "gross_margin")).
Proof.
  assert (¬ missing metrics → stringifiable (getProp metrics "gross_margin") = true →
          ∃ r1 r2 r4,
            Trend.FinancialTrendChart metrics =
              Normal [ {| Trend.name := "Q1"; Trend.revenue := r1 |};
                       {| Trend.name := "Q2"; Trend.revenue := r2 |};
                       {| Trend.name := "Q3";
                          Trend.revenue := getProp metrics "gross_margin" |};
                       {| Trend.name := "Q4"; Trend.revenue := r4 |} ]) as Hreturns.
  { intros Hpresent Hconv.
    assert (member metrics "gross_margin" = Normal (getProp metrics "gross_margin"))
      as Hmember.
    { destruct metrics; try done; destruct Hpresent; by (left + right). }
    unfold Trend.FinancialTrendChart. rewrite Hmember. simpl.
    unfold minus_lit, to_number. rewrite Hconv. simpl.
    destruct (plus_lit (getProp metrics "gross_margin") 3) as [r4|e] eqn:Hplus.
    - simpl. eauto.
    - unfold plus_lit in Hplus. rewrite Hconv in Hplus.
      by destruct (getProp metrics "gross_margin"). }
  split.
  - split.
    + intros Hthrow.
      destruct (stringifiable (getProp metrics "gross_margin")) eqn:Hconv; [|by right].
      left. destruct metrics; try (by (left + right));
        (destruct Hreturns as (r1 & r2 & r4 & Hchart);
           [by intros [H | H] | done | by rewrite Hchart in Hthrow]).
    + intros [[-> | ->] | Hconv]; [done | done |].
      unfold Trend.FinancialTrendChart, member.
      destruct metrics; try done; simpl in *; try discriminate Hconv;
        unfold minus_lit, to_number; by rewrite Hconv.
  - intros Hpresent Hconv.
    destruct (Hreturns Hpresent Hconv) as (r1 & r2 & r4 & ->). by eexists.
Qed.

Lemma trend_chart_needs_metrics_witness :
  @Trend.FinancialTrendChart bare_host exact_arithmetic VUndefined = Throw TypeError ∧
  @Trend.FinancialTrendChart bare_host exact_arithmetic
    (VObj [("gross_margin", VObj [("toString", num 1)])]) = Throw TypeError ∧
  ∃ points,
    @Trend.FinancialTrendChart bare_host exact_arithmetic
      (VObj [("gross_margin", num 40)]) = Normal points ∧
    Trend.name <$> points = ["Q1"; "Q2"; "Q3"; "Q4"].
Proof.
  split_and!.
  - apply (trend_chart_needs_metrics bare_host exact_arithmetic VUndefined).
    left. left. reflexivity.
  - apply (trend_chart_needs_metrics bare_host exact_arithmetic
             (VObj [("gross_margin", VObj [("toString", num 1)])])).
    right. reflexivity.
  - destruct (trend_chart_needs_metrics bare_host exact_arithmetic
                (VObj [("gross_margin", num 40)])) as (_ & Hpoints).
    destruct Hpoints as (points & Hchart & Hnames & _).
    + intros [H | H]; discriminate H.
    + reflexivity.
    + by exists points.
Defined.

(** X25. The last quarter of the trend chart depends on the type of the
    gross margin. For a number it is the margin plus 3, like the first two
    quarters are the margin minus 5 and minus 2. For a text it is the text
    followed by "3", while the first two quarters are computed from the
    number the text converts to. *)
Theorem trend_chart_margin_types (rt : Runtime) (ar : Arithmetic)
    (metrics : value) (n : number) (s : string) :
  ¬ missing metrics →
  (getProp metrics "gross_margin" = VNum n →
     fmap (M := completion) (fmap Trend.revenue) (Trend.FinancialTrendChart metrics) =
       Normal [ VNum (number_sub n (Finite 5)); VNum (number_sub n (Finite 2));
                VNum n; VNum (number_add n (Finite 3)) ]) ∧
  (getProp metrics "gross_margin" = VStr s →
     fmap (M := completion) (fmap Trend.revenue) (Trend.FinancialTrendChart metrics) =
       Normal [ VNum (number_sub (StringToNumber s) (Finite 5));
                VNum (number_sub (StringToNumber s) (Finite 2));
                VStr s; VStr (s ++ "3") ]).
Proof.
  intros _. unfold Trend.FinancialTrendChart, member.
  destruct metrics;
    split; intros Hmargin; rewrite ?Hmargin; try discriminate Hmargin;
    reflexivity.
Qed.

Lemma trend_chart_margin_types_witness :
  fmap (M := completion) (fmap Trend.revenue)
    (@Trend.FinancialTrendChart bare_host exact_arithmetic
       (VObj [("gross_margin", VStr "n/a")])) =
    Normal [ VNum NaN; VNum NaN; VStr "n/a"; VStr "n/a3" ] ∧
  fmap (M := completion) (fmap Trend.revenue)
    (@Trend.FinancialTrendChart bare_host exact_arithmetic
       (VObj [("gross_margin", VNum (Finite 40))])) =
    Normal [ VNum (Finite (40 - 5)); VNum (Finite (40 - 2));
             VNum (Finite 40); VNum (Finite (40 + 3)) ].
Proof.
  split.
  - pose proof (trend_chart_margin_types bare_host exact_arithmetic
      (VObj [("gross_margin", VStr "n/a")]) NaN "n/a") as Htypes.
    destruct Htypes as (_ & Htext).
    + intros [H | H]; discriminate H.
    + by apply Htext.
  - pose proof (trend_chart_margin_types bare_host exact_arithmetic
      (VObj [("gross_margin", VNum (Finite 40))]) (Finite 40) "") as Htypes.
    destruct Htypes as (Hnumber & _).
    + intros [H | H]; discriminate H.
    + by apply Hnumber.
Defined.

(** ** Cards of the results page *)

(** X26. On the results page a card shows a subtitle paragraph exactly
    when the field it takes its subtitle from is truthy, and then the
    paragraph is that field; when the field is missing nothing is shown.
    The survival, compliance and percentile cards never show one. *)
Theorem results_subtitles (analysis : value) (o : overview) :
  ResultsPage analysis = Shown o →
  Forall2 (λ field c,
     card_title c = field.1 ∧
     match field.2 with
     | None => ∀ s, element_subtitle (Card_body c) ≠ inr s
     | Some path =>
         (truthy (lookup_path analysis path) = true →
            element_subtitle (Card_body c) = inr (lookup_path analysis path)) ∧
         (truthy (lookup_path analysis path) = false →
            ∀ s, element_subtitle (Card_body c) ≠ inr s) ∧
         (missing (lookup_path analysis path) →
            element_subtitle (Card_body c) = inl (VStr ""))
     end)
    subtitle_fields (scores o ++ finances o)%list.
Proof.
  unfold ResultsPage. destruct (negb (truthy analysis)); [done|].
  intros [= <-]. unfold subtitle_fields, lookup_path, Card_body. simpl.
  assert (∀ v, (truthy v = true →
                  (if truthy (nullish v (VStr "")) then
                     inr (nullish v (VStr ""))
                   else inl (nullish v (VStr ""))) = inr (A := value) v) ∧
               (truthy v = false →
                  ∀ s, (if truthy (nullish v (VStr "")) then
                          inr (nullish v (VStr ""))
                        else inl (nullish v (VStr ""))) ≠ inr (A := value) s) ∧
               (missing v →
                  (if truthy (nullish v (VStr "")) then
                     inr (nullish v (VStr ""))
                   else inl (nullish v (VStr ""))) = inl (B := value) (VStr "")))
    as Hsub.
  { intros v. split_and!.
    - intros Ht. rewrite nullish_present; [by rewrite Ht|].
      intros [-> | ->]; discriminate Ht.
    - intros Hf s. destruct v; simpl in *; try done; by rewrite Hf.
    - by intros [-> | ->]. }
  repeat (constructor; [split; [done|]; first [apply Hsub | done]|]).
  constructor.
Qed.

Lemma results_subtitles_witness :
  let analysis := VObj [("risk", VObj [("score", num 820);
                                       ("category", VStr "Low Risk")])] in
  ∃ o, ResultsPage analysis = Shown o ∧
       Forall2 (λ field c,
          card_title c = field.1 ∧
          match field.2 with
          | None => ∀ s, element_subtitle (Card_body c) ≠ inr s
          | Some path =>
              (truthy (lookup_path analysis path) = true →
                 element_subtitle (Card_body c) = inr (lookup_path analysis path)) ∧
              (truthy (lookup_path analysis path) = false →
                 ∀ s, element_subtitle (Card_body c) ≠ inr s) ∧
              (missing (lookup_path analysis path) →
                 element_subtitle (Card_body c) = inl (VStr ""))
          end)
         subtitle_fields (scores o ++ finances o)%list.
Proof.
  cbn zeta. eexists. split; [reflexivity|].
  apply (results_subtitles
           (VObj [("risk", VObj [("score", num 820);
                                 ("category", VStr "Low Risk")])])).
  reflexivity.
Defined.
